(** * pev2: the plan-node component (metrics, severity classes, highlight bar)

    A shallow embedding of the script part of the plan-node component: the
    functions that derive a node's percentages ([calculateDuration],
    [calculateCost], [calculateRowsRemoved]), the highlight bar
    ([calculateBar]), the severity classes ([durationClass], ...), the worker
    counts and the never-executed flag.

    Numbers.  A JavaScript number is modelled by [JS.number]: [NaN], the two
    infinities, and the finite values as exact rationals.  The special values
    follow IEEE 754 (division by zero, [NaN] propagation, comparisons with
    [NaN] are false).  Finite arithmetic is exact: the rounding of doubles,
    overflow to infinity and the sign of zero are outside the model.  The
    theorems on the percentages therefore state what holds with and without
    that rounding (when a value is a number, its sign and range, its
    distance from the exact percentage, classes between whole percents) and
    do not fix the rounded value of an inexact quotient; the closed examples
    use inputs on which double arithmetic gives the same results.

    State.  The component keeps its derived values in Vue refs; they are the
    fields of the record [State], and each [calculate...] function maps the
    state before the call to the state after it. *)

From Stdlib Require Import ZArith QArith Qround Lqa Lia.
From Stdlib Require Import List String Ascii Bool DecimalString.
Import ListNotations.

Local Open Scope Z_scope.

(* ================================================================== *)
(** * JavaScript numbers and values *)
(* ================================================================== *)

Module JS.

(** A JavaScript number. *)
Inductive number : Type :=
| NaN
| PosInf
| NegInf
| Fin (q : Q).

(** A value read from an object property that holds a number when it is
    there: [undefined] or a number. *)
Inductive value : Type :=
| undefined
| Num (n : number).

Definition Qis_zero (q : Q) : bool := Qeq_bool q 0.
Definition Qis_neg (q : Q) : bool := (Qnum q <? 0)%Z.

Definition inf_of (negative : bool) : number :=
  if negative then NegInf else PosInf.

Definition of_Z (z : Z) : number := Fin (inject_Z z).

(** [ToNumber]: [undefined] becomes [NaN]. *)
Definition ToNumber (v : value) : number :=
  match v with
  | undefined => NaN
  | Num n => n
  end.

(** [a + b] on numbers. *)
Definition add (a b : number) : number :=
  match a, b with
  | NaN, _ | _, NaN => NaN
  | PosInf, NegInf | NegInf, PosInf => NaN
  | PosInf, _ | _, PosInf => PosInf
  | NegInf, _ | _, NegInf => NegInf
  | Fin x, Fin y => Fin (x + y)
  end.

(** [a * b] on numbers. *)
Definition mul (a b : number) : number :=
  match a, b with
  | NaN, _ | _, NaN => NaN
  | Fin x, Fin y => Fin (x * y)
  | Fin x, PosInf | PosInf, Fin x =>
      if Qis_zero x then NaN else inf_of (Qis_neg x)
  | Fin x, NegInf | NegInf, Fin x =>
      if Qis_zero x then NaN else inf_of (negb (Qis_neg x))
  | PosInf, PosInf | NegInf, NegInf => PosInf
  | PosInf, NegInf | NegInf, PosInf => NegInf
  end.

(** [a / b] on numbers: a finite non-zero value over zero is an infinity,
    zero over zero and infinity over infinity are [NaN]. *)
Definition div (a b : number) : number :=
  match a, b with
  | NaN, _ | _, NaN => NaN
  | (PosInf | NegInf), (PosInf | NegInf) => NaN
  | PosInf, Fin y => inf_of (Qis_neg y)
  | NegInf, Fin y => inf_of (negb (Qis_neg y))
  | Fin _, (PosInf | NegInf) => Fin 0
  | Fin x, Fin y =>
      if Qis_zero y
      then (if Qis_zero x then NaN else inf_of (Qis_neg x))
      else Fin (x / y)
  end.

(** The comparison behind [<], [>], [<=], [>=] and [===] on numbers: none
    when an operand is [NaN]. *)
Definition compare (a b : number) : option comparison :=
  match a, b with
  | NaN, _ | _, NaN => None
  | PosInf, PosInf | NegInf, NegInf => Some Eq
  | PosInf, _ | _, NegInf => Some Gt
  | NegInf, _ | _, PosInf => Some Lt
  | Fin x, Fin y => Some (x ?= y)%Q
  end.

Definition gt (a b : number) : bool :=
  match compare a b with Some Gt => true | _ => false end.

Definition lt (a b : number) : bool :=
  match compare a b with Some Lt => true | _ => false end.

Definition le (a b : number) : bool :=
  match compare a b with Some Lt | Some Eq => true | _ => false end.

(** [a === b] on numbers. *)
Definition strict_eq (a b : number) : bool :=
  match compare a b with Some Eq => true | _ => false end.

(** [a === b] on values: [undefined] equals only itself. *)
Definition value_strict_eq (a b : value) : bool :=
  match a, b with
  | undefined, undefined => true
  | Num x, Num y => strict_eq x y
  | _, _ => false
  end.

(** [Math.round]: the nearest integer, halves towards plus infinity. *)
Definition round (a : number) : number :=
  match a with
  | Fin q => of_Z (Qfloor (q + (1 # 2)))
  | _ => a
  end.

(** [Math.floor]. *)
Definition floor (a : number) : number :=
  match a with
  | Fin q => of_Z (Qfloor q)
  | _ => a
  end.

(** [ToBoolean] on numbers: [NaN] and zero are falsy. *)
Definition number_truthy (a : number) : bool :=
  match a with
  | NaN => false
  | Fin q => negb (Qis_zero q)
  | _ => true
  end.

(** [ToBoolean] on values. *)
Definition truthy (v : value) : bool :=
  match v with
  | undefined => false
  | Num n => number_truthy n
  end.

(** [a || b]. *)
Definition or (a b : value) : value := if truthy a then a else b.

(** The decimal numeral of an integer. *)
Definition Z_toString (z : Z) : string := NilZero.string_of_int (Z.to_int z).

Definition Qis_integer (q : Q) : bool := Qeq_bool q (inject_Z (Qfloor q)).

(** [n.toString()].  An integer below 10^21 in magnitude prints as its decimal
    numeral; every other finite value (a fraction, or an integer that
    JavaScript prints in exponent notation) is left to [other]. *)
Definition Number_toString (other : Q -> string) (n : number) : string :=
  match n with
  | NaN => "NaN"
  | PosInf => "Infinity"
  | NegInf => "-Infinity"
  | Fin q =>
      if Qis_integer q && (Z.abs (Qfloor q) <? 10 ^ 21)%Z
      then Z_toString (Qfloor q)
      else other q
  end.

End JS.

(* ================================================================== *)
(** * The data the component reads *)
(* ================================================================== *)

(** Modelled from the spec: the property-key enumeration [NodeProp] of the
    enums module is not among the sources.  Only the members this component
    reads in the functions below are listed, under the names the component
    uses; a member stands for its own key. *)
Inductive NodeProp : Type :=
| ACTUAL_ROWS
| ACTUAL_TOTAL_TIME
| ACTUAL_LOOPS
| EXCLUSIVE_DURATION
| EXCLUSIVE_COST
| PLANNER_ESTIMATE_FACTOR
| HEAP_FETCHES
| ROWS_REMOVED_BY_FILTER
| ROWS_REMOVED_BY_JOIN_FILTER
| ROWS_REMOVED_BY_FILTER_REVISED
| ROWS_REMOVED_BY_JOIN_FILTER_REVISED
| WORKERS_PLANNED
| WORKERS_LAUNCHED
| WORKERS_PLANNED_BY_GATHER.

Definition NodeProp_eqb (a b : NodeProp) : bool :=
  match a, b with
  | ACTUAL_ROWS, ACTUAL_ROWS
  | ACTUAL_TOTAL_TIME, ACTUAL_TOTAL_TIME
  | ACTUAL_LOOPS, ACTUAL_LOOPS
  | EXCLUSIVE_DURATION, EXCLUSIVE_DURATION
  | EXCLUSIVE_COST, EXCLUSIVE_COST
  | PLANNER_ESTIMATE_FACTOR, PLANNER_ESTIMATE_FACTOR
  | HEAP_FETCHES, HEAP_FETCHES
  | ROWS_REMOVED_BY_FILTER, ROWS_REMOVED_BY_FILTER
  | ROWS_REMOVED_BY_JOIN_FILTER, ROWS_REMOVED_BY_JOIN_FILTER
  | ROWS_REMOVED_BY_FILTER_REVISED, ROWS_REMOVED_BY_FILTER_REVISED
  | ROWS_REMOVED_BY_JOIN_FILTER_REVISED, ROWS_REMOVED_BY_JOIN_FILTER_REVISED
  | WORKERS_PLANNED, WORKERS_PLANNED
  | WORKERS_LAUNCHED, WORKERS_LAUNCHED
  | WORKERS_PLANNED_BY_GATHER, WORKERS_PLANNED_BY_GATHER => true
  | _, _ => false
  end.

(** [Object.keys(NodeProp)]: the members in declaration order. *)
Definition NodeProp_members : list NodeProp :=
  [ ACTUAL_ROWS; ACTUAL_TOTAL_TIME; ACTUAL_LOOPS; EXCLUSIVE_DURATION;
    EXCLUSIVE_COST; PLANNER_ESTIMATE_FACTOR; HEAP_FETCHES;
    ROWS_REMOVED_BY_FILTER; ROWS_REMOVED_BY_JOIN_FILTER;
    ROWS_REMOVED_BY_FILTER_REVISED; ROWS_REMOVED_BY_JOIN_FILTER_REVISED;
    WORKERS_PLANNED; WORKERS_LAUNCHED; WORKERS_PLANNED_BY_GATHER ].

(** Modelled from the spec: the enumeration [HighlightType] of the enums
    module is not among the sources; the spec names the dimensions duration,
    rows and cost, and none. *)
Inductive HighlightType : Type := NONE | DURATION | ROWS | COST.

(** A worker record: per-worker counters under their keys. *)
Definition Worker : Type := list (string * JS.value).

(** A plan node.  [props] holds the node's own number-valued properties in
    key order, as [Object.keys] lists them; a key that is not there reads as
    [undefined].  The [Workers] property, the one this component reads as an
    array, is a field of its own. *)
Record Node : Type := {
  props : list (NodeProp * JS.value);
  Workers : option (list Worker)
}.

(** [Object.keys(node)], restricted to the keys of [props]. *)
Definition keys (node : Node) : list NodeProp := map fst (props node).

(** [node[key]]. *)
Definition prop (node : Node) (key : NodeProp) : JS.value :=
  match find (fun kv => NodeProp_eqb (fst kv) key) (props node) with
  | Some kv => snd kv
  | None => JS.undefined
  end.

Record PlanStats : Type := {
  executionTime : JS.value;
  maxRows : JS.value;
  maxCost : JS.value;
  maxDuration : JS.value
}.

Record Content : Type := {
  Plan : option Node;
  maxTotalCost : JS.value
}.

Record IPlan : Type := {
  planStats : PlanStats;
  content : option Content
}.

Record ViewOptions : Type := {
  highlightType : HighlightType
}.

(* ================================================================== *)
(** * The component's state (its refs) *)
(* ================================================================== *)

Record State : Type := {
  executionTimePercent : JS.number;
  costPercent : JS.number;
  barWidth : JS.number;
  highlightValue : option string;          (* string | null *)
  rowsRemoved : JS.value;
  rowsRemovedPercent : JS.number;
  rowsRemovedPercentString : option string (* string | undefined *)
}.

(** The refs as they are declared. *)
Definition setup : State := {|
  executionTimePercent := JS.NaN;
  costPercent := JS.NaN;
  barWidth := JS.of_Z 0;
  highlightValue := None;
  rowsRemoved := JS.Num JS.NaN;
  rowsRemovedPercent := JS.NaN;
  rowsRemovedPercentString := None
|}.

Definition set_executionTimePercent (x : JS.number) (s : State) : State := {|
  executionTimePercent := x;
  costPercent := costPercent s;
  barWidth := barWidth s;
  highlightValue := highlightValue s;
  rowsRemoved := rowsRemoved s;
  rowsRemovedPercent := rowsRemovedPercent s;
  rowsRemovedPercentString := rowsRemovedPercentString s
|}.

Definition set_costPercent (x : JS.number) (s : State) : State := {|
  executionTimePercent := executionTimePercent s;
  costPercent := x;
  barWidth := barWidth s;
  highlightValue := highlightValue s;
  rowsRemoved := rowsRemoved s;
  rowsRemovedPercent := rowsRemovedPercent s;
  rowsRemovedPercentString := rowsRemovedPercentString s
|}.

Definition set_barWidth (x : JS.number) (s : State) : State := {|
  executionTimePercent := executionTimePercent s;
  costPercent := costPercent s;
  barWidth := x;
  highlightValue := highlightValue s;
  rowsRemoved := rowsRemoved s;
  rowsRemovedPercent := rowsRemovedPercent s;
  rowsRemovedPercentString := rowsRemovedPercentString s
|}.

Definition set_highlightValue (x : option string) (s : State) : State := {|
  executionTimePercent := executionTimePercent s;
  costPercent := costPercent s;
  barWidth := barWidth s;
  highlightValue := x;
  rowsRemoved := rowsRemoved s;
  rowsRemovedPercent := rowsRemovedPercent s;
  rowsRemovedPercentString := rowsRemovedPercentString s
|}.

Definition set_rowsRemoved (x : JS.value) (s : State) : State := {|
  executionTimePercent := executionTimePercent s;
  costPercent := costPercent s;
  barWidth := barWidth s;
  highlightValue := highlightValue s;
  rowsRemoved := x;
  rowsRemovedPercent := rowsRemovedPercent s;
  rowsRemovedPercentString := rowsRemovedPercentString s
|}.

Definition set_rowsRemovedPercent (x : JS.number) (s : State) : State := {|
  executionTimePercent := executionTimePercent s;
  costPercent := costPercent s;
  barWidth := barWidth s;
  highlightValue := highlightValue s;
  rowsRemoved := rowsRemoved s;
  rowsRemovedPercent := x;
  rowsRemovedPercentString := rowsRemovedPercentString s
|}.

Definition set_rowsRemovedPercentString (x : option string) (s : State)
  : State := {|
  executionTimePercent := executionTimePercent s;
  costPercent := costPercent s;
  barWidth := barWidth s;
  highlightValue := highlightValue s;
  rowsRemoved := rowsRemoved s;
  rowsRemovedPercent := rowsRemovedPercent s;
  rowsRemovedPercentString := x
|}.

(* ================================================================== *)
(** * The component's functions *)
(* ================================================================== *)

Section Component.

(** The formatters [duration], [rows] and [cost] of the filters module are
    not among the sources: they are parameters, and so is the printing of
    the numbers that [JS.Number_toString] leaves open. *)
Variables duration rows cost : JS.number -> string.
Variable toString_other : Q -> string.

Variable viewOptions : ViewOptions.
Variable plan : IPlan.
Variable node : Node.

(** [plan?.content?.Plan?.[NodeProp.ACTUAL_TOTAL_TIME]]. *)
Definition rootActualTotalTime : JS.value :=
  match content plan with
  | None => JS.undefined
  | Some c =>
      match Plan c with
      | None => JS.undefined
      | Some root => prop root ACTUAL_TOTAL_TIME
      end
  end.

Definition calculateDuration (s : State) : State :=
  (* use the first node total time if plan execution time is not available *)
  let executionTime :=
    JS.or (executionTime (planStats plan)) rootActualTotalTime in
  let duration := prop node EXCLUSIVE_DURATION in
  set_executionTimePercent
    (JS.round
       (JS.mul (JS.div (JS.ToNumber duration) (JS.ToNumber executionTime))
               (JS.of_Z 100)))
    s.

(** [plan.content.maxTotalCost] throws when [plan.content] is undefined:
    the result is then [None]. *)
Definition calculateCost (s : State) : option State :=
  match content plan with
  | None => None
  | Some c =>
      let maxTotalCost := maxTotalCost c in
      let cost := prop node EXCLUSIVE_COST in
      Some (set_costPercent
              (JS.round
                 (JS.mul (JS.div (JS.ToNumber cost) (JS.ToNumber maxTotalCost))
                         (JS.of_Z 100)))
              s)
  end.

(** The computed [rowsRemovedProp]: the first key of the node that is one of
    the two revised rows-removed keys, looked up again among the members of
    [NodeProp]; [None] is [undefined]. *)
Definition rowsRemovedProp : option NodeProp :=
  let nodeKey :=
    find (fun key =>
            NodeProp_eqb key ROWS_REMOVED_BY_FILTER_REVISED
            || NodeProp_eqb key ROWS_REMOVED_BY_JOIN_FILTER_REVISED)
         (keys node) in
  find (fun prop =>
          match nodeKey with
          | Some k => NodeProp_eqb prop k
          | None => false
          end)
       NodeProp_members.

Definition calculateRowsRemoved (s : State) : State :=
  match rowsRemovedProp with
  | Some p =>
      let removed := prop node p in
      let s := set_rowsRemoved removed s in
      let actual := prop node ACTUAL_ROWS in
      let s :=
        set_rowsRemovedPercent
          (JS.floor
             (JS.mul
                (JS.div (JS.ToNumber removed)
                        (JS.add (JS.ToNumber removed) (JS.ToNumber actual)))
                (JS.of_Z 100)))
          s in
      if JS.strict_eq (rowsRemovedPercent s) (JS.of_Z 100) then
        set_rowsRemovedPercentString (Some ">99"%string) s
      else if JS.strict_eq (rowsRemovedPercent s) (JS.of_Z 0) then
        set_rowsRemovedPercentString (Some "<1"%string) s
      else
        set_rowsRemovedPercentString
          (Some (JS.Number_toString toString_other (rowsRemovedPercent s))) s
  | None => s
  end.

Definition calculateBar (s : State) : State :=
  match highlightType viewOptions with
  | DURATION =>
      match prop node EXCLUSIVE_DURATION with
      | JS.undefined => set_highlightValue None s
      | JS.Num value =>
          let s :=
            set_barWidth
              (JS.round
                 (JS.mul
                    (JS.div value (JS.ToNumber (maxDuration (planStats plan))))
                    (JS.of_Z 100)))
              s in
          set_highlightValue (Some (duration value)) s
      end
  | ROWS =>
      match prop node ACTUAL_ROWS with
      | JS.undefined => set_highlightValue None s
      | JS.Num value =>
          let s :=
            set_barWidth
              (JS.ToNumber
                 (JS.or
                    (JS.Num
                       (JS.round
                          (JS.mul
                             (JS.div value
                                     (JS.ToNumber (maxRows (planStats plan))))
                             (JS.of_Z 100))))
                    (JS.Num (JS.of_Z 0))))
              s in
          set_highlightValue (Some (rows value)) s
      end
  | COST =>
      match prop node EXCLUSIVE_COST with
      | JS.undefined => set_highlightValue None s
      | JS.Num value =>
          let s :=
            set_barWidth
              (JS.round
                 (JS.mul
                    (JS.div value (JS.ToNumber (maxCost (planStats plan))))
                    (JS.of_Z 100)))
              s in
          set_highlightValue (Some (cost value)) s
      end
  | NONE => s
  end.

(** [onBeforeMount], as far as it writes the state: the four calculations in
    the order of the source, from the refs as declared. *)
Definition onBeforeMount : option State :=
  let s := calculateBar setup in
  let s := calculateDuration s in
  match calculateCost s with
  | Some s => Some (calculateRowsRemoved s)
  | None => None
  end.

(** The end of every class function: [if (c) return "c-" + c; return false].
    [None] is [false]. *)
Definition classOf (c : option Z) : option string :=
  match c with
  | Some c =>
      if JS.truthy (JS.Num (JS.of_Z c))
      then Some ("c-" ++ JS.Z_toString c)%string
      else None
  | None => None
  end.

Definition durationClass (s : State) : option string :=
  let i := executionTimePercent s in
  let c :=
    if JS.gt i (JS.of_Z 90) then Some 4
    else if JS.gt i (JS.of_Z 40) then Some 3
    else if JS.gt i (JS.of_Z 10) then Some 2
    else None in
  classOf c.

Definition estimationClass : option string :=
  let i := JS.ToNumber (prop node PLANNER_ESTIMATE_FACTOR) in
  let c :=
    if JS.gt i (JS.of_Z 1000) then Some 4
    else if JS.gt i (JS.of_Z 100) then Some 3
    else if JS.gt i (JS.of_Z 10) then Some 2
    else None in
  classOf c.

Definition costClass (s : State) : option string :=
  let i := costPercent s in
  let c :=
    if JS.gt i (JS.of_Z 90) then Some 4
    else if JS.gt i (JS.of_Z 40) then Some 3
    else if JS.gt i (JS.of_Z 10) then Some 2
    else None in
  classOf c.

(** The product that [rowsRemovedClass] compares. *)
Definition rowsRemovedScore (s : State) : JS.number :=
  JS.mul (rowsRemovedPercent s) (executionTimePercent s).

Definition rowsRemovedClass (s : State) : option string :=
  (* high percent of rows removed is relevant only when duration is high
     as well *)
  let i := rowsRemovedScore s in
  let c :=
    if JS.gt i (JS.of_Z 2000) then Some 4
    else if JS.gt i (JS.of_Z 500) then Some 3
    else None in
  classOf c.

(** The ratio that [heapFetchesClass] compares. *)
Definition heapFetchesRatio : JS.number :=
  JS.mul
    (JS.div
       (JS.ToNumber (prop node HEAP_FETCHES))
       (JS.add
          (JS.add
             (JS.ToNumber (prop node ACTUAL_ROWS))
             (JS.ToNumber
                (JS.or (prop node ROWS_REMOVED_BY_FILTER)
                       (JS.Num (JS.of_Z 0)))))
          (JS.ToNumber
             (JS.or (prop node ROWS_REMOVED_BY_JOIN_FILTER)
                    (JS.Num (JS.of_Z 0))))))
    (JS.of_Z 100).

Definition heapFetchesClass : option string :=
  let i := heapFetchesRatio in
  let c :=
    if JS.gt i (JS.of_Z 90) then Some 4
    else if JS.gt i (JS.of_Z 40) then Some 3
    else if JS.gt i (JS.of_Z 10) then Some 2
    else None in
  classOf c.

(** An array is truthy whatever its length.  The [console.warn] of the
    source writes no state and is left out. *)
Definition workersLaunchedCount : JS.number :=
  match Workers node with
  | Some workers => JS.of_Z (Z.of_nat (List.length workers))
  | None => JS.NaN
  end.

Definition workersPlannedCount : JS.value :=
  prop node WORKERS_PLANNED_BY_GATHER.

Definition allWorkersLaunched : bool :=
  negb (JS.truthy (prop node WORKERS_LAUNCHED))
  || JS.value_strict_eq (prop node WORKERS_PLANNED)
                        (prop node WORKERS_LAUNCHED).

Definition isNeverExecuted : bool :=
  JS.truthy (executionTime (planStats plan))
  && negb (JS.truthy (prop node ACTUAL_LOOPS)).

Definition hasSeveralLoops : bool :=
  JS.gt (JS.ToNumber (prop node ACTUAL_LOOPS)) (JS.of_Z 1).

(** ** The template's conditions *)

(** [v-if] on a class: a non-empty string shows the badge, [false] hides
    it. *)
Definition badgeShown (class : option string) : bool :=
  match class with
  | Some c => negb (String.eqb c "")
  | None => false
  end.


End Component.

(* ================================================================== *)
(** * The vocabulary of the specification *)
(* ================================================================== *)

(** The severity tiers of the specification, in increasing order. *)
Inductive Tier : Type :=
| tier_none
| tier_low
| tier_medium
| tier_high
| tier_critical.

Definition Tier_rank (t : Tier) : nat :=
  match t with
  | tier_none => 0
  | tier_low => 1
  | tier_medium => 2
  | tier_high => 3
  | tier_critical => 4
  end.

Definition Tier_le (a b : Tier) : Prop := (Tier_rank a <= Tier_rank b)%nat.

(** The tier a class stands for: the specification's table calls the classes
    [c-2], [c-3] and [c-4] low, medium and high; no class is tier none. *)
Definition tierOfClass (class : option string) : Tier :=
  match class with
  | None => tier_none
  | Some c =>
      if String.eqb c "c-2" then tier_low
      else if String.eqb c "c-3" then tier_medium
      else if String.eqb c "c-4" then tier_high
      else tier_none
  end.

(** The specification's classifier: an ordered threshold table, checked with
    strictly-greater-than from the first row down, the first match wins;
    tier none when no row matches. *)
Fixpoint thresholdTier (table : list (Z * Tier)) (x : JS.number) : Tier :=
  match table with
  | [] => tier_none
  | (threshold, tier) :: rest =>
      if JS.gt x (JS.of_Z threshold) then tier else thresholdTier rest x
  end.

(** The tables of the specification. *)
Definition percentTable : list (Z * Tier) :=
  [ (90, tier_high); (40, tier_medium); (10, tier_low) ].

Definition estimationTable : list (Z * Tier) :=
  [ (1000, tier_high); (100, tier_medium); (10, tier_low) ].

Definition rowsRemovedTable : list (Z * Tier) :=
  [ (2000, tier_high); (500, tier_medium) ].

(** A count: a finite number that is not negative. *)
Definition isCount (n : JS.number) : Prop :=
  match n with
  | JS.Fin q => (0 <= q)%Q
  | _ => False
  end.

(** A value that is a count when it is there. *)
Definition isCountOrAbsent (v : JS.value) : Prop :=
  match v with
  | JS.undefined => True
  | JS.Num n => isCount n
  end.

(** A non-negative integer. *)
Definition isNonNegInteger (n : JS.number) : Prop :=
  exists z : Z, 0 <= z /\ n = JS.of_Z z.

(** A number between 0 and 100. *)
Definition inPercentRange (n : JS.number) : Prop :=
  JS.le (JS.of_Z 0) n = true /\ JS.le n (JS.of_Z 100) = true.

(** A node with the given number-valued properties and no worker list. *)
Definition nodeOf (kvs : list (NodeProp * Z)) : Node := {|
  props := map (fun kv => (fst kv, JS.Num (JS.of_Z (snd kv)))) kvs;
  Workers := None
|}.

(** A plan with the given statistics and root node. *)
Definition planOf (stats : PlanStats) (root : option Node) : IPlan := {|
  planStats := stats;
  content := Some {| Plan := root; maxTotalCost := JS.undefined |}
|}.

Definition noStats : PlanStats := {|
  executionTime := JS.undefined;
  maxRows := JS.undefined;
  maxCost := JS.undefined;
  maxDuration := JS.undefined
|}.

(** Plan statistics with the given maxima of duration, rows and cost and no
    execution time. *)
Definition maximaOf (duration rows cost : Z) : PlanStats := {|
  executionTime := JS.undefined;
  maxRows := JS.Num (JS.of_Z rows);
  maxCost := JS.Num (JS.of_Z cost);
  maxDuration := JS.Num (JS.of_Z duration)
|}.

(** Plan statistics with the given execution time and nothing else. *)
Definition timedStats (time : Z) : PlanStats := {|
  executionTime := JS.Num (JS.of_Z time);
  maxRows := JS.undefined;
  maxCost := JS.undefined;
  maxDuration := JS.undefined
|}.

(** A gather node that planned two workers and launched one; it has no
    worker list of its own. *)
Definition gatherNode : Node :=
  nodeOf [ (WORKERS_PLANNED, 2); (WORKERS_LAUNCHED, 1) ].

(** Stand-ins for the formatters in the closed examples. *)
Definition plainLabel (n : JS.number) : string :=
  JS.Number_toString (fun _ => ""%string) n.

Definition noOther (q : Q) : string := ""%string.

(** The key is one of the two revised rows-removed keys. *)
Definition isRowsRemovedKey (key : NodeProp) : bool :=
  NodeProp_eqb key ROWS_REMOVED_BY_FILTER_REVISED
  || NodeProp_eqb key ROWS_REMOVED_BY_JOIN_FILTER_REVISED.

(** The rows-removed percentage as [calculateRowsRemoved] computes it from
    the removed and the actual rows. *)
Definition removedPercentOf (removed actual : JS.value) : JS.number :=
  JS.floor
    (JS.mul
       (JS.div (JS.ToNumber removed)
               (JS.add (JS.ToNumber removed) (JS.ToNumber actual)))
       (JS.of_Z 100)).

(** The raw metric of a highlight dimension, and the plan-wide maximum
    recorded for it. *)
Definition rawMetric (h : HighlightType) (node : Node) : JS.value :=
  match h with
  | DURATION => prop node EXCLUSIVE_DURATION
  | ROWS => prop node ACTUAL_ROWS
  | COST => prop node EXCLUSIVE_COST
  | NONE => JS.undefined
  end.

Definition planMaximum (h : HighlightType) (plan : IPlan) : JS.value :=
  match h with
  | DURATION => maxDuration (planStats plan)
  | ROWS => maxRows (planStats plan)
  | COST => maxCost (planStats plan)
  | NONE => JS.undefined
  end.

(** The class that stands for a tier; the top class is [c-4]. *)
Definition classOfTier (t : Tier) : option string :=
  match t with
  | tier_none => None
  | tier_low => Some "c-2"%string
  | tier_medium => Some "c-3"%string
  | tier_high | tier_critical => Some "c-4"%string
  end.

(** A class function follows a threshold table on a metric: it returns the
    class of the tier the table gives, and so stands for that tier. *)
Definition followsTable (class : option string) (table : list (Z * Tier))
    (metric : JS.number) : Prop :=
  class = classOfTier (thresholdTier table metric)
  /\ tierOfClass class = thresholdTier table metric.


(* ================================================================== *)
(** * More of the plan-node component *)
(* ================================================================== *)

(** [a >= b] on numbers. *)
Definition number_ge (a b : JS.number) : bool :=
  match JS.compare a b with
  | Some Gt | Some Eq => true
  | _ => false
  end.

(** Modelled from the spec: the enumeration [ViewMode] of the enums module
    is not among the sources; the component names its members [FULL] and
    [DOT], every other mode is [OTHER_MODE]. *)
Inductive ViewMode : Type := FULL | DOT | OTHER_MODE.

(** Modelled from the spec: the enumeration [EstimateDirection] of the enums
    module is not among the sources; the component names its member [none],
    every other direction is [over_or_under]. *)
Inductive EstimateDirection : Type := estimate_none | over_or_under.

(** The UI flags of the component. *)
Record Flags : Type := {
  showDetails : bool;
  collapsed : bool
}.

(** The refs that [onBeforeMount] copies from the node for the planner
    estimate; the direction is [None] when the node has none. *)
Record EstimateRefs : Type := {
  plannerRowEstimateValue : JS.value;
  plannerRowEstimateDirection : option EstimateDirection
}.

(** [plannerRowEstimateDirection.value = node[PLANNER_ESTIMATE_DIRECTION]]
    and [plannerRowEstimateValue.value = node[PLANNER_ESTIMATE_FACTOR]] in
    [onBeforeMount]. *)
Definition mountEstimateRefs (node : Node)
    (direction : option EstimateDirection) : EstimateRefs := {|
  plannerRowEstimateValue := prop node PLANNER_ESTIMATE_FACTOR;
  plannerRowEstimateDirection := direction
|}.

(** [shouldShowPlannerEstimate], as the template's [v-if] reads it: the
    truthiness of the value returned.  A class is a non-empty string or
    [false]. *)
Definition shouldShowPlannerEstimate (viewMode : ViewMode) (flags : Flags)
    (refs : EstimateRefs) (node : Node) : bool :=
  if (collapsed flags && negb (showDetails flags))
     || match viewMode with DOT => true | _ => false end
  then false
  else
    (badgeShown (estimationClass node) || showDetails flags)
    && match plannerRowEstimateDirection refs with
       | Some estimate_none => false
       | _ => true
       end
    && JS.truthy (plannerRowEstimateValue refs).

Definition shouldShowNodeBarLabel (viewMode : ViewMode) (flags : Flags)
  : bool :=
  if showDetails flags then true
  else if collapsed flags || match viewMode with DOT => true | _ => false end
  then false
  else true.

(** [Array(n)], by its length: [Array(undefined)] is the one-element array
    holding [undefined]; a number that is not an integer from 0 to 2^32 - 1
    throws a RangeError, which is [None]. *)
Definition Array_length (n : JS.value) : option nat :=
  match n with
  | JS.undefined => Some 1%nat
  | JS.Num (JS.Fin q) =>
      if JS.Qis_integer q && (0 <=? Qfloor q) && (Qfloor q <? 2 ^ 32)
      then Some (Z.to_nat (Qfloor q))
      else None
  | JS.Num _ => None
  end.

(** [[...Array(workersPlanned).keys()].slice().reverse()]. *)
Definition workersPlannedCountReversed (node : Node) : option (list Z) :=
  match Array_length (prop node WORKERS_PLANNED_BY_GATHER) with
  | Some len => Some (rev (map Z.of_nat (seq 0 len)))
  | None => None
  end.

(** The template's worker boxes: none unless [workersPlannedCount] is
    truthy; then one box per index of [workersPlannedCountReversed], dashed
    when [index >= workersLaunchedCount].  [None] when the array cannot be
    built. *)
Definition workerBoxes (node : Node) : option (list (Z * bool)) :=
  if JS.truthy (workersPlannedCount node) then
    match workersPlannedCountReversed node with
    | Some indexes =>
        Some (map (fun index =>
                     (index,
                      number_ge (JS.of_Z index) (workersLaunchedCount node)))
                  indexes)
    | None => None
    end
  else Some [].

(** [tilde]. *)
Definition tilde (node : Node) : string :=
  if hasSeveralLoops node then "~" else "".

(** [filterTooltip]; an undefined string prints as "undefined". *)
Definition filterTooltip (s : State) : string :=
  (match rowsRemovedPercentString s with
   | Some text => text
   | None => "undefined"
   end ++ "% of rows removed by filter")%string.

(** The two filter icons of the template: the alert one under
    [v-if="rowsRemovedClass"], the muted one under
    [v-if="rowsRemoved && !rowsRemovedClass"]; both carry [filterTooltip]. *)
Definition filterAlertShown (s : State) : bool :=
  badgeShown (rowsRemovedClass s).

Definition filterMutedShown (s : State) : bool :=
  JS.truthy (rowsRemoved s) && negb (badgeShown (rowsRemovedClass s)).

(** A capital letter from A to Z. *)
Definition isCapital (c : ascii) : bool :=
  (65 <=? nat_of_ascii c)%nat && (nat_of_ascii c <=? 90)%nat.

(** [text.replace(/[^A-Z]/g, "")]. *)
Fixpoint keepCapitals (text : string) : string :=
  match text with
  | EmptyString => EmptyString
  | String c rest =>
      if isCapital c then String c (keepCapitals rest) else keepCapitals rest
  end.

(** [getNodeName], from [isParallelAware] and [node[NodeProp.NODE_TYPE]]; an
    undefined node type is appended as "undefined". *)
Definition getNodeName (viewMode : ViewMode) (flags : Flags)
    (isParallelAware : bool) (nodeType : option string) : string :=
  let nodeName := (if isParallelAware then "Parallel " else "")%string in
  let nodeName :=
    (nodeName ++ match nodeType with
                 | Some text => text
                 | None => "undefined"
                 end)%string in
  match viewMode with
  | DOT =>
      if negb (showDetails flags) then keepCapitals nodeName else nodeName
  | _ => nodeName
  end.

(** ** The miscellaneous properties and the I/O buffers

    Where a function takes a property key as a string, the key is written by
    the name of the [NodeProp] member it is the value of (the enumeration is
    not among the sources and its values are distinct); a key that is no
    member's value is any other string. *)

(** A value of unknown type, as far as [!!value] looks at it. *)
Inductive anyValue : Type :=
| any_undefined
| any_null
| any_boolean (b : bool)
| any_number (n : JS.number)
| any_string (text : string)
| any_object.

Definition any_truthy (v : anyValue) : bool :=
  match v with
  | any_undefined | any_null => false
  | any_boolean b => b
  | any_number n => JS.number_truthy n
  | any_string text => negb (String.eqb text "")
  | any_object => true
  end.

(** Modelled from the spec: the enumeration [PropType] of the enums module
    is not among the sources; the component names its member [increment],
    every other type is [other_type]. *)
Inductive PropType : Type := increment | other_type.

(** The list of properties that have already been displayed either in the
    main panel or in other detailed tabs. *)
Definition notMiscProperties : list string :=
  [ "NODE_TYPE"; "CTE_NAME"; "EXCLUSIVE_DURATION"; "EXCLUSIVE_COST";
    "TOTAL_COST"; "PLAN_ROWS"; "ACTUAL_ROWS"; "ACTUAL_LOOPS"; "OUTPUT";
    "WORKERS"; "WORKERS_PLANNED"; "WORKERS_LAUNCHED";
    "EXCLUSIVE_SHARED_HIT_BLOCKS"; "EXCLUSIVE_SHARED_READ_BLOCKS";
    "EXCLUSIVE_SHARED_DIRTIED_BLOCKS"; "EXCLUSIVE_SHARED_WRITTEN_BLOCKS";
    "EXCLUSIVE_TEMP_READ_BLOCKS"; "EXCLUSIVE_TEMP_WRITTEN_BLOCKS";
    "EXCLUSIVE_LOCAL_HIT_BLOCKS"; "EXCLUSIVE_LOCAL_READ_BLOCKS";
    "EXCLUSIVE_LOCAL_DIRTIED_BLOCKS"; "EXCLUSIVE_LOCAL_WRITTEN_BLOCKS";
    "SHARED_HIT_BLOCKS"; "SHARED_READ_BLOCKS"; "SHARED_DIRTIED_BLOCKS";
    "SHARED_WRITTEN_BLOCKS"; "TEMP_READ_BLOCKS"; "TEMP_WRITTEN_BLOCKS";
    "LOCAL_HIT_BLOCKS"; "LOCAL_READ_BLOCKS"; "LOCAL_DIRTIED_BLOCKS";
    "LOCAL_WRITTEN_BLOCKS"; "PLANNER_ESTIMATE_FACTOR";
    "PLANNER_ESTIMATE_DIRECTION"; "SUBPLAN_NAME"; "GROUP_KEY";
    "HASH_CONDITION"; "JOIN_TYPE"; "INDEX_NAME"; "HASH_CONDITION";
    "EXCLUSIVE_IO_READ_TIME"; "EXCLUSIVE_IO_WRITE_TIME";
    "IO_READ_TIME"; (* Exclusive value already shown in IO tab *)
    "IO_WRITE_TIME"; (* Exclusive value already shown in IO tab *)
    "HEAP_FETCHES"; "WAL_RECORDS"; "WAL_BYTES"; "WAL_FPI"; "NODE_ID";
    "ROWS_REMOVED_BY_FILTER"; "ROWS_REMOVED_BY_JOIN_FILTER";
    "ACTUAL_ROWS_REVISED"; "PLAN_ROWS_REVISED";
    "ROWS_REMOVED_BY_FILTER_REVISED";
    "ROWS_REMOVED_BY_JOIN_FILTER_REVISED" ]%string.

(** [list.indexOf(key) === -1]. *)
Definition notListed (key : string) (list : list string) : bool :=
  negb (existsb (String.eqb key) list).

(** [shouldShowProp]; the table [nodePropTypes] of the enums module is a
    parameter. *)
Definition shouldShowProp (nodePropTypes : string -> option PropType)
    (key : string) (value : anyValue) : bool :=
  (any_truthy value
   || match nodePropTypes key with Some increment => true | _ => false end
   || String.eqb key "ACTUAL_ROWS")
  && notListed key notMiscProperties.

(** A node read through the names of its number-valued properties; the I/O
    counters are not among the members of [NodeProp] listed above. *)
Definition NamedNode : Type := list (string * JS.value).

Definition namedProp (node : NamedNode) (name : string) : JS.value :=
  match find (fun kv => String.eqb (fst kv) name) node with
  | Some kv => snd kv
  | None => JS.undefined
  end.

(** lodash's [_.isNaN]: true of the number [NaN] only. *)
Definition lodash_isNaN (v : JS.value) : bool :=
  match v with
  | JS.Num JS.NaN => true
  | _ => false
  end.

(** lodash's [_.sum]: 0 for an empty array; otherwise the values that are
    not [undefined] added from the left, [undefined] when there is none. *)
Definition lodash_sum (values : list JS.value) : JS.value :=
  match values with
  | [] => JS.Num (JS.of_Z 0)
  | _ =>
      fold_left
        (fun result current =>
           match current with
           | JS.undefined => result
           | JS.Num c =>
               match result with
               | JS.undefined => JS.Num c
               | JS.Num r => JS.Num (JS.add r c)
               end
           end)
        values JS.undefined
  end.

Definition ioBufferProperties : list string :=
  [ "EXCLUSIVE_SHARED_HIT_BLOCKS"; "EXCLUSIVE_SHARED_READ_BLOCKS";
    "EXCLUSIVE_SHARED_DIRTIED_BLOCKS"; "EXCLUSIVE_SHARED_WRITTEN_BLOCKS";
    "EXCLUSIVE_TEMP_READ_BLOCKS"; "EXCLUSIVE_TEMP_WRITTEN_BLOCKS";
    "EXCLUSIVE_LOCAL_HIT_BLOCKS"; "EXCLUSIVE_LOCAL_READ_BLOCKS";
    "EXCLUSIVE_LOCAL_DIRTIED_BLOCKS"; "EXCLUSIVE_LOCAL_WRITTEN_BLOCKS";
    "EXCLUSIVE_IO_READ_TIME"; "EXCLUSIVE_IO_WRITE_TIME" ]%string.

Definition shouldShowIoBuffers (node : NamedNode) : bool :=
  let values :=
    map (fun property =>
           let value := namedProp node property in
           if lodash_isNaN value then JS.Num (JS.of_Z 0) else value)
        ioBufferProperties in
  let sum := lodash_sum values in
  JS.gt (JS.ToNumber sum) (JS.of_Z 0).

(** A counter of the I/O tab: absent, [NaN], or a count. *)
Definition isCounter (v : JS.value) : Prop :=
  match v with
  | JS.undefined | JS.Num JS.NaN => True
  | JS.Num n => isCount n
  end.

(** A counter that is there and positive. *)
Definition isPositive (v : JS.value) : Prop :=
  match v with
  | JS.Num (JS.Fin q) => (0 < q)%Q
  | _ => False
  end.

(** A value as [_.sum] meets it here: absent, or a count. *)
Definition summand (v : JS.value) : Prop :=
  match v with
  | JS.undefined => True
  | JS.Num (JS.Fin q) => (0 <= q)%Q
  | JS.Num _ => False
  end.


(* ================================================================== *)
(** * The home view: the form and the saved plans *)
(* ================================================================== *)

Module Home.

(** A saved plan: its name, the text or JSON of the plan, the query, and the
    time of creation, which the samples do not have. *)
Record Plan : Type := {
  planName : string;
  planSource : string;
  planQuery : string;
  planCreatedAt : option string
}.

(** An element of the array of saved plans: a plan, or [None] for a hole of
    the array in memory, which is [null] in the stored JSON. *)
Definition Slot : Type := option Plan.

(** The refs of the view and the entry "plans" of the local storage.  The
    stored JSON text is modelled by the array it denotes, [None] when there
    is no entry: [JSON.parse] gives back what [JSON.stringify] was given,
    holes turned to [null]. *)
Record View : Type := {
  planInput : string;
  queryInput : string;
  queryName : string;
  savedPlans : option (list Slot);   (* undefined until first loaded *)
  currentPlanIndex : Z;
  localStorage : option (list Slot)
}.

Definition setup (stored : option (list Slot)) : View := {|
  planInput := "";
  queryInput := "";
  queryName := "";
  savedPlans := None;
  currentPlanIndex := -1;
  localStorage := stored
|}.

(** [JSON.parse(localStorage.getItem(KEY) || "[]")]. *)
Definition loadSavedPlans (stored : option (list Slot)) : list Slot :=
  match stored with
  | Some plans => plans
  | None => []
  end.

(** [localStorage.setItem(KEY, JSON.stringify(plans))]. *)
Definition storeSavedPlans (plans : list Slot) : option (list Slot) :=
  Some plans.

(** [array[index] = item] for an index from 0 up: past the end the array
    grows, with holes up to the index. *)
Fixpoint assign (array : list Slot) (index : nat) (item : Slot)
  : list Slot :=
  match index, array with
  | O, [] => [item]
  | O, _ :: rest => item :: rest
  | S k, [] => None :: assign [] k item
  | S k, first :: rest => first :: assign rest k item
  end.

(** [array[index]]: [undefined], here [None], outside the array and below
    0. *)
Definition at_index (array : list Slot) (index : Z) : Slot :=
  if index <? 0 then None
  else match nth_error array (Z.to_nat index) with
       | Some slot => slot
       | None => None
       end.

(** [array.splice(index, 1)], by what is left of the array: a negative index
    counts from the end, and nothing is removed from the end on. *)
Definition splice1 (array : list Slot) (index : Z) : list Slot :=
  let len := Z.of_nat (List.length array) in
  let start := if index <? 0 then Z.max (len + index) 0 else Z.min index len in
  firstn (Z.to_nat start) array ++ skipn (S (Z.to_nat start)) array.

Definition savePlanData (sample : Plan) (v : View) : View :=
  let saved := loadSavedPlans (localStorage v) in
  let saved :=
    if 0 <=? currentPlanIndex v
    then assign saved (Z.to_nat (currentPlanIndex v)) (Some sample)
    else Some sample :: saved in
  {| planInput := planInput v;
     queryInput := queryInput v;
     queryName := queryName v;
     savedPlans := Some saved;
     currentPlanIndex := currentPlanIndex v;
     localStorage := storeSavedPlans saved |}.

(** [submitPlan]; the two texts of [new Date()] are parameters, and the call
    of the injected [setPlanData], which opens the plan, is left out. *)
Definition submitPlan (localeNow isoNow : string) (v : View) : View :=
  let newPlan := {|
    planName :=
      if String.eqb (queryName v) ""
      then ("New Plan - " ++ localeNow)%string
      else queryName v;
    planSource := planInput v;
    planQuery := queryInput v;
    planCreatedAt := Some isoNow
  |} in
  savePlanData newPlan v.

(** The part of [onMounted] that writes the refs. *)
Definition onMounted (v : View) : View :=
  {| planInput := planInput v;
     queryInput := queryInput v;
     queryName := queryName v;
     savedPlans := Some (loadSavedPlans (localStorage v));
     currentPlanIndex := currentPlanIndex v;
     localStorage := localStorage v |}.

(** Loads the plan details in the form. *)
Definition loadPlan (plan : Slot) (index : option Z) (v : View) : View :=
  match plan with
  | None => v
  | Some plan =>
      {| planInput := planSource plan;
         queryInput := planQuery plan;
         queryName := planName plan;
         savedPlans := savedPlans v;
         currentPlanIndex :=
           match index with
           | Some index => index
           | None => -1
           end;
         localStorage := localStorage v |}
  end.

Definition editPlan (index : Z) (v : View) : View :=
  loadPlan
    (match savedPlans v with
     | Some saved => at_index saved index
     | None => None
     end)
    (Some index) v.

Definition deletePlan (index : Z) (v : View) : View :=
  let saved :=
    match savedPlans v with
    | Some saved => Some (splice1 saved index)
    | None => None
    end in
  {| planInput := planInput v;
     queryInput := queryInput v;
     queryName := queryName v;
     savedPlans := saved;
     currentPlanIndex := currentPlanIndex v;
     localStorage :=
       storeSavedPlans (match saved with Some saved => saved | None => [] end)
  |}.

(** What the user and the page do to the view: the page is mounted; the
    form's fields are typed into; a sample is picked from the menu; the form
    is submitted; a saved plan is edited or deleted by its index in the
    list. *)
Inductive Event : Type :=
| Mounted
| Typed (plan query name : string)
| SamplePicked (sample : Plan)
| Submitted (localeNow isoNow : string)
| EditClicked (index : Z)
| DeleteClicked (index : Z).

Definition handle (v : View) (e : Event) : View :=
  match e with
  | Mounted => onMounted v
  | Typed plan query name =>
      {| planInput := plan;
         queryInput := query;
         queryName := name;
         savedPlans := savedPlans v;
         currentPlanIndex := currentPlanIndex v;
         localStorage := localStorage v |}
  | SamplePicked sample => loadPlan (Some sample) None v
  | Submitted localeNow isoNow => submitPlan localeNow isoNow v
  | EditClicked index => editPlan index v
  | DeleteClicked index => deletePlan index v
  end.

Definition run (events : list Event) (v : View) : View :=
  fold_left handle events v.

(** The edit and delete buttons of the list carry the index of a row of the
    list shown. *)
Definition clickable (v : View) (e : Event) : Prop :=
  match e with
  | EditClicked index | DeleteClicked index =>
      match savedPlans v with
      | Some saved => 0 <= index < Z.of_nat (List.length saved)
      | None => False
      end
  | _ => True
  end.

(** A run in which every click is on a row of the list shown then. *)
Fixpoint possible (events : list Event) (v : View) : Prop :=
  match events with
  | [] => True
  | e :: rest => clickable v e /\ possible rest (handle v e)
  end.

End Home.
(* ================================================================== *)
(** * Facts about JavaScript numbers *)
(* ================================================================== *)

Module JSFacts.

Lemma Qis_zero_true (q : Q) : JS.Qis_zero q = true <-> (q == 0)%Q.
Proof. unfold JS.Qis_zero. apply Qeq_bool_iff. Qed.

Lemma Qis_zero_false (q : Q) : JS.Qis_zero q = false <-> ~ (q == 0)%Q.
Proof.
  rewrite <- Qis_zero_true.
  destruct (JS.Qis_zero q); split; intro H; try discriminate; auto.
  exfalso; apply H; reflexivity.
Qed.

Lemma Qis_zero_pos (q : Q) : (0 < q)%Q -> JS.Qis_zero q = false.
Proof. intro H. apply Qis_zero_false. intro E. rewrite E in H. lra. Qed.

Lemma compare_of_Z (a b : Z) :
  JS.compare (JS.of_Z a) (JS.of_Z b) = Some (a ?= b)%Z.
Proof.
  unfold JS.of_Z, JS.compare, Qcompare; simpl.
  now rewrite !Z.mul_1_r.
Qed.

Lemma gt_Fin (x y : Q) : JS.gt (JS.Fin x) (JS.Fin y) = true <-> (y < x)%Q.
Proof.
  unfold JS.gt, JS.compare. rewrite Qgt_alt.
  destruct (x ?= y)%Q; split; intro H; try discriminate; reflexivity.
Qed.

Lemma le_Fin (x y : Q) : JS.le (JS.Fin x) (JS.Fin y) = true <-> (x <= y)%Q.
Proof.
  unfold JS.le, JS.compare. rewrite Qle_alt.
  destruct (x ?= y)%Q; split; intro H; try discriminate; try reflexivity.
  exfalso; apply H; reflexivity.
Qed.

Lemma strict_eq_Fin (x y : Q) :
  JS.strict_eq (JS.Fin x) (JS.Fin y) = true <-> (x == y)%Q.
Proof.
  unfold JS.strict_eq, JS.compare. rewrite Qeq_alt.
  destruct (x ?= y)%Q; split; intro H; try discriminate; reflexivity.
Qed.


Lemma le_of_Z (a b : Z) : JS.le (JS.of_Z a) (JS.of_Z b) = (a <=? b)%Z.
Proof.
  unfold JS.le. rewrite compare_of_Z. unfold Z.leb.
  destruct (a ?= b)%Z; reflexivity.
Qed.

(** A comparison with [NaN] is false. *)
Lemma gt_NaN_l (c : JS.number) : JS.gt JS.NaN c = false.
Proof. reflexivity. Qed.

Lemma le_not_NaN (x y : JS.number) :
  JS.le x y = true -> x <> JS.NaN /\ y <> JS.NaN.
Proof.
  destruct x, y; cbv [JS.le JS.compare]; intro H; split; congruence.
Qed.

(** [>] against a finite bound goes up along [<=]. *)
Lemma gt_le_trans (x y : JS.number) (c : Z) :
  JS.le x y = true -> JS.gt x (JS.of_Z c) = true ->
  JS.gt y (JS.of_Z c) = true.
Proof.
  unfold JS.of_Z.
  destruct x as [| | |x], y as [| | |y]; try discriminate; try reflexivity.
  rewrite le_Fin, !gt_Fin. intros H1 H2. lra.
Qed.

Lemma mul_NaN_l (b : JS.number) : JS.mul JS.NaN b = JS.NaN.
Proof. reflexivity. Qed.


Lemma div_NaN_l (b : JS.number) : JS.div JS.NaN b = JS.NaN.
Proof. reflexivity. Qed.


Lemma add_NaN_r (a : JS.number) : JS.add a JS.NaN = JS.NaN.
Proof. destruct a; reflexivity. Qed.

(** A finite value over a positive finite value is their quotient. *)
Lemma div_Fin_pos (x y : Q) :
  (0 < y)%Q -> JS.div (JS.Fin x) (JS.Fin y) = JS.Fin (x / y).
Proof. intro H. simpl. now rewrite (Qis_zero_pos y H). Qed.

Lemma Qfloor_inject_Z (z : Z) : Qfloor (inject_Z z) = z.
Proof. apply Qfloor_Z. Qed.

Lemma Qis_integer_inject_Z (z : Z) : JS.Qis_integer (inject_Z z) = true.
Proof.
  unfold JS.Qis_integer. rewrite Qfloor_inject_Z. apply Qeq_bool_iff.
  reflexivity.
Qed.






End JSFacts.

(* ================================================================== *)
(** * The severity classes *)
(* ================================================================== *)

Lemma classOf_2 : classOf (Some 2) = Some "c-2"%string.
Proof. reflexivity. Qed.

Lemma classOf_3 : classOf (Some 3) = Some "c-3"%string.
Proof. reflexivity. Qed.

Lemma classOf_4 : classOf (Some 4) = Some "c-4"%string.
Proof. reflexivity. Qed.

(** The three-step ladder of a class function. *)
Lemma ladder3_follows (i : JS.number) (hi mid lo : Z) :
  followsTable
    (classOf
       (if JS.gt i (JS.of_Z hi) then Some 4
        else if JS.gt i (JS.of_Z mid) then Some 3
        else if JS.gt i (JS.of_Z lo) then Some 2
        else None))
    [ (hi, tier_high); (mid, tier_medium); (lo, tier_low) ] i.
Proof.
  unfold followsTable; simpl.
  destruct (JS.gt i (JS.of_Z hi)); [split; reflexivity|].
  destruct (JS.gt i (JS.of_Z mid)); [split; reflexivity|].
  destruct (JS.gt i (JS.of_Z lo)); split; reflexivity.
Qed.

(** The two-step ladder of [rowsRemovedClass]. *)
Lemma ladder2_follows (i : JS.number) (hi mid : Z) :
  followsTable
    (classOf
       (if JS.gt i (JS.of_Z hi) then Some 4
        else if JS.gt i (JS.of_Z mid) then Some 3
        else None))
    [ (hi, tier_high); (mid, tier_medium) ] i.
Proof.
  unfold followsTable; simpl.
  destruct (JS.gt i (JS.of_Z hi)); [split; reflexivity|].
  destruct (JS.gt i (JS.of_Z mid)); split; reflexivity.
Qed.

Lemma durationClass_follows (s : State) :
  followsTable (durationClass s) percentTable (executionTimePercent s).
Proof. apply ladder3_follows. Qed.

Lemma costClass_follows (s : State) :
  followsTable (costClass s) percentTable (costPercent s).
Proof. apply ladder3_follows. Qed.

Lemma heapFetchesClass_follows (node : Node) :
  followsTable (heapFetchesClass node) percentTable (heapFetchesRatio node).
Proof. apply ladder3_follows. Qed.

Lemma estimationClass_follows (node : Node) :
  followsTable (estimationClass node) estimationTable
    (JS.ToNumber (prop node PLANNER_ESTIMATE_FACTOR)).
Proof. apply ladder3_follows. Qed.

Lemma rowsRemovedClass_follows (s : State) :
  followsTable (rowsRemovedClass s) rowsRemovedTable (rowsRemovedScore s).
Proof. apply ladder2_follows. Qed.

(** A threshold table whose rows go down in threshold and in tier gives a
    tier that goes up with the metric. *)
Lemma thresholdTier3_monotone (hi mid lo : Z) (x y : JS.number) :
  JS.le x y = true ->
  Tier_le
    (thresholdTier [ (hi, tier_high); (mid, tier_medium); (lo, tier_low) ] x)
    (thresholdTier [ (hi, tier_high); (mid, tier_medium); (lo, tier_low) ] y).
Proof.
  intro Hxy. unfold Tier_le. simpl.
  destruct (JS.gt x (JS.of_Z hi)) eqn:Xhi.
  { rewrite (JSFacts.gt_le_trans x y hi Hxy Xhi). simpl; lia. }
  destruct (JS.gt x (JS.of_Z mid)) eqn:Xmid.
  { rewrite (JSFacts.gt_le_trans x y mid Hxy Xmid).
    destruct (JS.gt y (JS.of_Z hi)); simpl; lia. }
  destruct (JS.gt x (JS.of_Z lo)) eqn:Xlo.
  { rewrite (JSFacts.gt_le_trans x y lo Hxy Xlo).
    destruct (JS.gt y (JS.of_Z hi)), (JS.gt y (JS.of_Z mid)); simpl; lia. }
  simpl; lia.
Qed.

Lemma thresholdTier2_monotone (hi mid : Z) (x y : JS.number) :
  JS.le x y = true ->
  Tier_le
    (thresholdTier [ (hi, tier_high); (mid, tier_medium) ] x)
    (thresholdTier [ (hi, tier_high); (mid, tier_medium) ] y).
Proof.
  intro Hxy. unfold Tier_le. simpl.
  destruct (JS.gt x (JS.of_Z hi)) eqn:Xhi.
  { rewrite (JSFacts.gt_le_trans x y hi Hxy Xhi). simpl; lia. }
  destruct (JS.gt x (JS.of_Z mid)) eqn:Xmid.
  { rewrite (JSFacts.gt_le_trans x y mid Hxy Xmid).
    destruct (JS.gt y (JS.of_Z hi)); simpl; lia. }
  simpl; lia.
Qed.


(** C5: every class function is its threshold table read from the top with
    strictly-greater-than, the first match winning: duration percent, cost
    percent and the heap-fetch ratio against 90 (high), 40 (medium) and 10
    (low); the estimation factor against 1000, 100 and 10; the product of
    rows-removed percent and duration percent against 2000 (high) and 500
    (medium), which never gives tier low. *)
Theorem classes_follow_threshold_tables :
  (forall s,
      followsTable (durationClass s) percentTable (executionTimePercent s))
  /\ (forall s, followsTable (costClass s) percentTable (costPercent s))
  /\ (forall node,
      followsTable (heapFetchesClass node) percentTable
        (heapFetchesRatio node))
  /\ (forall node,
      followsTable (estimationClass node) estimationTable
        (JS.ToNumber (prop node PLANNER_ESTIMATE_FACTOR)))
  /\ (forall s,
      followsTable (rowsRemovedClass s) rowsRemovedTable
        (JS.mul (rowsRemovedPercent s) (executionTimePercent s))
      /\ tierOfClass (rowsRemovedClass s) <> tier_low)
  /\ percentTable = [ (90, tier_high); (40, tier_medium); (10, tier_low) ]
  /\ estimationTable
     = [ (1000, tier_high); (100, tier_medium); (10, tier_low) ]
  /\ rowsRemovedTable = [ (2000, tier_high); (500, tier_medium) ].
Proof.
  split; [exact durationClass_follows|].
  split; [exact costClass_follows|].
  split; [exact heapFetchesClass_follows|].
  split; [exact estimationClass_follows|].
  split; [|repeat split].
  intro s. split; [exact (rowsRemovedClass_follows s)|].
  destruct (rowsRemovedClass_follows s) as [_ E]. rewrite E.
  unfold rowsRemovedTable; simpl.
  destruct (JS.gt (rowsRemovedScore s) (JS.of_Z 2000)); [discriminate|].
  destruct (JS.gt (rowsRemovedScore s) (JS.of_Z 500)); discriminate.
Qed.

(** C8: every class function is monotonic in its metric: when [x <= y] for
    two defined values of the metric, the tier at [x] is at most the tier at
    [y], in the order none, low, medium, high, critical; an estimation
    factor of 5, 50, 500 and 5000 gives none, low, medium and high. *)
Theorem classes_monotonic (x y : JS.number) (Hxy : JS.le x y = true) :
  (forall s1 s2,
      executionTimePercent s1 = x -> executionTimePercent s2 = y ->
      Tier_le (tierOfClass (durationClass s1)) (tierOfClass (durationClass s2)))
  /\ (forall s1 s2,
      costPercent s1 = x -> costPercent s2 = y ->
      Tier_le (tierOfClass (costClass s1)) (tierOfClass (costClass s2)))
  /\ (forall n1 n2,
      JS.ToNumber (prop n1 PLANNER_ESTIMATE_FACTOR) = x ->
      JS.ToNumber (prop n2 PLANNER_ESTIMATE_FACTOR) = y ->
      Tier_le (tierOfClass (estimationClass n1))
              (tierOfClass (estimationClass n2)))
  /\ (forall n1 n2,
      heapFetchesRatio n1 = x -> heapFetchesRatio n2 = y ->
      Tier_le (tierOfClass (heapFetchesClass n1))
              (tierOfClass (heapFetchesClass n2)))
  /\ (forall s1 s2,
      rowsRemovedScore s1 = x -> rowsRemovedScore s2 = y ->
      Tier_le (tierOfClass (rowsRemovedClass s1))
              (tierOfClass (rowsRemovedClass s2)))
  /\ (tierOfClass (estimationClass (nodeOf [(PLANNER_ESTIMATE_FACTOR, 5)]))
      = tier_none
      /\ tierOfClass (estimationClass (nodeOf [(PLANNER_ESTIMATE_FACTOR, 50)]))
         = tier_low
      /\ tierOfClass (estimationClass (nodeOf [(PLANNER_ESTIMATE_FACTOR, 500)]))
         = tier_medium
      /\ tierOfClass
           (estimationClass (nodeOf [(PLANNER_ESTIMATE_FACTOR, 5000)]))
         = tier_high).
Proof.
  repeat split; try reflexivity; intros a b Ha Hb.
  - rewrite (proj2 (durationClass_follows a)),
      (proj2 (durationClass_follows b)), Ha, Hb.
    now apply thresholdTier3_monotone.
  - rewrite (proj2 (costClass_follows a)), (proj2 (costClass_follows b)),
      Ha, Hb.
    now apply thresholdTier3_monotone.
  - rewrite (proj2 (estimationClass_follows a)),
      (proj2 (estimationClass_follows b)), Ha, Hb.
    now apply thresholdTier3_monotone.
  - rewrite (proj2 (heapFetchesClass_follows a)),
      (proj2 (heapFetchesClass_follows b)), Ha, Hb.
    now apply thresholdTier3_monotone.
  - rewrite (proj2 (rowsRemovedClass_follows a)),
      (proj2 (rowsRemovedClass_follows b)), Ha, Hb.
    now apply thresholdTier2_monotone.
Qed.

Lemma classes_monotonic_witness :
  JS.le (JS.of_Z 5) (JS.of_Z 50) = true
  /\ Tier_le
       (tierOfClass (estimationClass (nodeOf [(PLANNER_ESTIMATE_FACTOR, 5)])))
       (tierOfClass (estimationClass (nodeOf [(PLANNER_ESTIMATE_FACTOR, 50)]))).
Proof.
  split; [reflexivity|].
  exact (proj1 (proj2 (proj2
           (classes_monotonic (JS.of_Z 5) (JS.of_Z 50) eq_refl)))
           (nodeOf [(PLANNER_ESTIMATE_FACTOR, 5)])
           (nodeOf [(PLANNER_ESTIMATE_FACTOR, 50)]) eq_refl eq_refl).
Defined.






Lemma calculateBar_absent_label
    (duration rows cost : JS.number -> string) (h : HighlightType)
    (plan : IPlan) (node : Node) (s : State) :
  h <> NONE -> rawMetric h node = JS.undefined ->
  calculateBar duration rows cost {| highlightType := h |} plan node s
  = set_highlightValue None s.
Proof.
  intros Hh E. unfold calculateBar; simpl.
  destruct h; simpl in E; try rewrite E; try reflexivity.
  now elim Hh.
Qed.



(* ================================================================== *)
(** * Never executed, and the workers *)
(* ================================================================== *)

Lemma truthy_count_false (v : JS.value) :
  isCountOrAbsent v ->
  (JS.truthy v = false <->
   v = JS.undefined \/ exists q, v = JS.Num (JS.Fin q) /\ (q == 0)%Q).
Proof.
  destruct v as [|[| | |q]]; simpl; try contradiction; intros _.
  - split; [left; reflexivity | reflexivity].
  - rewrite negb_false_iff, JSFacts.Qis_zero_true. split.
    + intro H. right. exists q. split; [reflexivity | exact H].
    + intros [H | (q' & E & H)]; [discriminate|].
      injection E as ->. exact H.
Qed.

(** C7: [isNeverExecuted] is true exactly when the plan-level execution time
    is truthy and the node's actual-loops count is falsy, which for a count
    means zero or absent; it is false for every node of a plan without an
    execution time. *)
Theorem isNeverExecuted_spec (plan : IPlan) (node : Node) :
  (isNeverExecuted plan node = true <->
   JS.truthy (executionTime (planStats plan)) = true
   /\ JS.truthy (prop node ACTUAL_LOOPS) = false)
  /\ (isCountOrAbsent (prop node ACTUAL_LOOPS) ->
      (isNeverExecuted plan node = true <->
       JS.truthy (executionTime (planStats plan)) = true
       /\ (prop node ACTUAL_LOOPS = JS.undefined
           \/ exists q, prop node ACTUAL_LOOPS = JS.Num (JS.Fin q)
                        /\ (q == 0)%Q)))
  /\ (executionTime (planStats plan) = JS.undefined ->
      isNeverExecuted plan node = false).
Proof.
  unfold isNeverExecuted. repeat split.
  - now destruct (JS.truthy (executionTime (planStats plan))).
  - apply andb_prop in H as [_ H]. now apply negb_true_iff.
  - intros [-> ->]. reflexivity.
  - now destruct (JS.truthy (executionTime (planStats plan))).
  - apply andb_prop in H0 as [_ H0]. apply negb_true_iff in H0.
    now apply truthy_count_false.
  - intros [-> Hl]. apply (truthy_count_false _ H) in Hl. now rewrite Hl.
  - intros ->. reflexivity.
Qed.

Lemma isNeverExecuted_spec_witness :
  isCountOrAbsent (prop (nodeOf [(ACTUAL_LOOPS, 0)]) ACTUAL_LOOPS)
  /\ isNeverExecuted (planOf (timedStats 12) None)
       (nodeOf [(ACTUAL_LOOPS, 0)])
     = true.
Proof.
  assert (H : isCountOrAbsent (prop (nodeOf [(ACTUAL_LOOPS, 0)]) ACTUAL_LOOPS))
    by (cbv; discriminate).
  split; [exact H|].
  apply (proj1 (proj2
           (isNeverExecuted_spec (planOf (timedStats 12) None)
              (nodeOf [(ACTUAL_LOOPS, 0)]))) H).
  split; [reflexivity|].
  right. exists (inject_Z 0). split; reflexivity.
Defined.

(** C9, as stated, fails: on a gather node that planned two workers and
    launched one, without a worker list, the derived launched count is [NaN]
    (falsy) and yet [allWorkersLaunched] is false. *)
Lemma allWorkersLaunched_ignores_worker_list :
  workersLaunchedCount gatherNode = JS.NaN
  /\ JS.number_truthy (workersLaunchedCount gatherNode) = false
  /\ allWorkersLaunched gatherNode = false
  /\ ~ (allWorkersLaunched gatherNode = true <->
        JS.number_truthy (workersLaunchedCount gatherNode) = false
        \/ JS.value_strict_eq (prop gatherNode WORKERS_PLANNED)
             (JS.Num (workersLaunchedCount gatherNode)) = true).
Proof.
  repeat split.
  intros [_ H]. discriminate H. left. reflexivity.
Qed.

(** C9, amended: the derived launched count is the length of the node's
    worker list when the list is there and [NaN], not 0, when it is not;
    [allWorkersLaunched] is true exactly when the node's own
    workers-launched property is falsy or strictly equal to its
    workers-planned property; the worker list plays no part in it. *)
Theorem workers_spec (node : Node) :
  (forall workers,
      Workers node = Some workers ->
      workersLaunchedCount node = JS.of_Z (Z.of_nat (List.length workers)))
  /\ (Workers node = None ->
      workersLaunchedCount node = JS.NaN
      /\ workersLaunchedCount node <> JS.of_Z 0)
  /\ (allWorkersLaunched node = true <->
      JS.truthy (prop node WORKERS_LAUNCHED) = false
      \/ JS.value_strict_eq (prop node WORKERS_PLANNED)
           (prop node WORKERS_LAUNCHED) = true)
  /\ (forall workers,
      allWorkersLaunched {| props := props node; Workers := workers |}
      = allWorkersLaunched node).
Proof.
  unfold workersLaunchedCount, allWorkersLaunched. repeat split.
  - intros workers ->. reflexivity.
  - rewrite H. reflexivity.
  - rewrite H. discriminate.
  - intro H. apply orb_prop in H as [H | H]; [left | right; exact H].
    now apply negb_true_iff.
  - intros [H | H]; rewrite H; [reflexivity | apply orb_true_r].
Qed.

Lemma workers_spec_witness :
  Workers gatherNode = None
  /\ workersLaunchedCount gatherNode = JS.NaN
  /\ workersLaunchedCount gatherNode <> JS.of_Z 0.
Proof.
  split; [reflexivity|].
  exact (proj1 (proj2 (workers_spec gatherNode)) eq_refl).
Defined.

(* ================================================================== *)
(** * The highlight bar *)
(* ================================================================== *)

Lemma inPercentRange_of_Z (z : Z) :
  inPercentRange (JS.of_Z z) <-> 0 <= z <= 100.
Proof.
  unfold inPercentRange. rewrite !JSFacts.le_of_Z, !Z.leb_le. tauto.
Qed.

(** [Math.round(x) || 0] on a number that is not [NaN] is [Math.round(x)]. *)
Lemma or_zero_of_Z (z : Z) :
  JS.ToNumber (JS.or (JS.Num (JS.of_Z z)) (JS.Num (JS.of_Z 0))) = JS.of_Z z.
Proof.
  unfold JS.or; simpl. destruct (JS.Qis_zero (inject_Z z)) eqn:E; simpl.
  - apply JSFacts.Qis_zero_true in E.
    unfold Qeq in E; simpl in E. rewrite Z.mul_1_r in E. now subst z.
  - reflexivity.
Qed.

(** The percentage of a value within a positive maximum rounds into
    0..100. *)
Lemma Qfloor_percent_bounds (v m : Q) :
  (0 < m)%Q -> (0 <= v)%Q -> (v <= m)%Q ->
  0 <= Qfloor (v / m * inject_Z 100 + (1 # 2)) <= 100.
Proof.
  intros Hm H0 H1.
  assert (L : (0 <= v / m)%Q) by (apply Qle_shift_div_l; [exact Hm | lra]).
  assert (U : (v / m <= 1)%Q) by (apply Qle_shift_div_r; [exact Hm | lra]).
  set (t := (v / m)%Q) in *.
  assert (E : (inject_Z 100 == 100)%Q) by reflexivity.
  split.
  - change 0 with (Qfloor (inject_Z 0)). apply Qfloor_resp_le.
    rewrite E. change (inject_Z 0) with 0%Q. lra.
  - change 100 with (Qfloor (201 # 2)). apply Qfloor_resp_le.
    rewrite E. lra.
Qed.

(** Above the maximum the rounded percentage is at least 100. *)
Lemma Qfloor_percent_above (v m : Q) :
  (0 < m)%Q -> (m <= v)%Q ->
  100 <= Qfloor (v / m * inject_Z 100 + (1 # 2)).
Proof.
  intros Hm H1.
  assert (L : (1 <= v / m)%Q) by (apply Qle_shift_div_l; [exact Hm | lra]).
  set (t := (v / m)%Q) in *.
  assert (E : (inject_Z 100 == 100)%Q) by reflexivity.
  change 100 with (Qfloor (inject_Z 100)) at 1. apply Qfloor_resp_le.
  rewrite E. lra.
Qed.

(** The bar width that [calculateBar] stores for a present value and a
    positive maximum, in each dimension, in the exact arithmetic of the
    model. *)
Lemma calculateBar_width
    (duration rows cost : JS.number -> string) (h : HighlightType)
    (plan : IPlan) (node : Node) (s : State) (v m : Q) :
  h <> NONE ->
  rawMetric h node = JS.Num (JS.Fin v) ->
  planMaximum h plan = JS.Num (JS.Fin m) ->
  (0 < m)%Q ->
  barWidth
    (calculateBar duration rows cost {| highlightType := h |} plan node s)
  = JS.of_Z (Qfloor (v / m * inject_Z 100 + (1 # 2))).
Proof.
  intros Hh Ev Em Hm. unfold calculateBar; simpl.
  destruct h; simpl in Ev, Em; try (now elim Hh);
    rewrite Ev, Em; simpl; rewrite (JSFacts.Qis_zero_pos m Hm); simpl.
  - reflexivity.
  - apply or_zero_of_Z.
  - reflexivity.
Qed.

(** C1, as stated, fails: a node duration of 150 against a recorded maximum
    of 100 gives a bar width of 150, which is outside 0..100. *)
Lemma calculateBar_not_clamped :
  barWidth
    (calculateBar plainLabel plainLabel plainLabel
       {| highlightType := DURATION |}
       (planOf (maximaOf 100 100 100) None)
       (nodeOf [(EXCLUSIVE_DURATION, 150)]) setup)
  = JS.of_Z 150
  /\ ~ inPercentRange
         (barWidth
            (calculateBar plainLabel plainLabel plainLabel
               {| highlightType := DURATION |}
               (planOf (maximaOf 100 100 100) None)
               (nodeOf [(EXCLUSIVE_DURATION, 150)]) setup)).
Proof.
  split; [reflexivity|].
  change (~ inPercentRange (JS.of_Z 150)).
  rewrite inPercentRange_of_Z. lia.
Qed.

(** With a recorded maximum of 0 the duration and cost dimensions store
    [NaN] for a value of 0 and infinity for a positive value; the rows
    dimension, which ends in [|| 0], stores 0 for a value of 0 and infinity
    for a positive one. *)
Example calculateBar_zero_maximum :
  barWidth
    (calculateBar plainLabel plainLabel plainLabel
       {| highlightType := DURATION |} (planOf (maximaOf 0 0 0) None)
       (nodeOf [(EXCLUSIVE_DURATION, 0)]) setup) = JS.NaN
  /\ barWidth
       (calculateBar plainLabel plainLabel plainLabel
          {| highlightType := COST |} (planOf (maximaOf 0 0 0) None)
          (nodeOf [(EXCLUSIVE_COST, 3)]) setup) = JS.PosInf
  /\ barWidth
       (calculateBar plainLabel plainLabel plainLabel
          {| highlightType := ROWS |} (planOf (maximaOf 0 0 0) None)
          (nodeOf [(ACTUAL_ROWS, 0)]) setup) = JS.of_Z 0
  /\ barWidth
       (calculateBar plainLabel plainLabel plainLabel
          {| highlightType := ROWS |} (planOf (maximaOf 0 0 0) None)
          (nodeOf [(ACTUAL_ROWS, 3)]) setup) = JS.PosInf.
Proof. repeat split. Qed.

(** C1, amended: for a node whose raw value [v] in the selected dimension
    (duration, rows or cost) is a finite number, and a recorded plan-wide
    maximum [m] that is positive, the bar width is not clamped: it lies in
    0..100, as a non-negative integer, when [0 <= v <= m], and it is at
    least 100 when [v] reaches or exceeds [m]; a node duration of 150
    against a recorded maximum of 100 gives 150.  In the rows dimension a
    value of 0 against a maximum of 0 gives 0. *)
Theorem calculateBar_fraction
    (duration rows cost : JS.number -> string) (h : HighlightType)
    (plan : IPlan) (node : Node) (s : State) (v m : Q)
    (Hh : h <> NONE)
    (Hv : rawMetric h node = JS.Num (JS.Fin v))
    (Hm : planMaximum h plan = JS.Num (JS.Fin m)) :
  let width :=
    barWidth
      (calculateBar duration rows cost {| highlightType := h |} plan node s)
  in
  ((0 < m)%Q -> (0 <= v)%Q -> (v <= m)%Q ->
   inPercentRange width /\ isNonNegInteger width)
  /\ ((0 < m)%Q -> (m <= v)%Q -> JS.le (JS.of_Z 100) width = true)
  /\ (h = ROWS -> (v == 0)%Q -> (m == 0)%Q -> width = JS.of_Z 0)
  /\ barWidth
       (calculateBar duration rows cost {| highlightType := DURATION |}
          (planOf (maximaOf 100 100 100) None)
          (nodeOf [(EXCLUSIVE_DURATION, 150)]) s)
     = JS.of_Z 150.
Proof.
  intro width. subst width. repeat apply conj.
  - intros Pm H0 H1.
    rewrite (calculateBar_width _ _ _ h plan node s v m) by assumption.
    pose proof (Qfloor_percent_bounds v m Pm H0 H1) as B. split.
    + now apply inPercentRange_of_Z.
    + eexists. split; [|reflexivity]. lia.
  - intros Pm H1.
    rewrite (calculateBar_width _ _ _ h plan node s v m) by assumption.
    rewrite JSFacts.le_of_Z. apply Z.leb_le.
    now apply Qfloor_percent_above.
  - intros -> Zv Zm. simpl in Hv, Hm. unfold calculateBar; simpl.
    rewrite Hv, Hm; simpl.
    apply JSFacts.Qis_zero_true in Zv, Zm. now rewrite Zv, Zm.
  - reflexivity.
Qed.

Lemma calculateBar_fraction_witness :
  DURATION <> NONE
  /\ rawMetric DURATION (nodeOf [(EXCLUSIVE_DURATION, 50)])
     = JS.Num (JS.Fin (inject_Z 50))
  /\ planMaximum DURATION (planOf (maximaOf 100 100 100) None)
     = JS.Num (JS.Fin (inject_Z 100))
  /\ inPercentRange
       (barWidth
          (calculateBar plainLabel plainLabel plainLabel
             {| highlightType := DURATION |}
             (planOf (maximaOf 100 100 100) None)
             (nodeOf [(EXCLUSIVE_DURATION, 50)]) setup)).
Proof.
  split; [discriminate|]. split; [reflexivity|]. split; [reflexivity|].
  refine (proj1 (proj1
            (calculateBar_fraction plainLabel plainLabel plainLabel DURATION
               (planOf (maximaOf 100 100 100) None)
               (nodeOf [(EXCLUSIVE_DURATION, 50)]) setup
               (inject_Z 50) (inject_Z 100) _ eq_refl eq_refl) _ _ _));
    [discriminate | reflexivity | discriminate | discriminate].
Defined.

(** C10: when the raw metric of the selected dimension is absent from the
    node, [calculateBar] sets the label to null and leaves the bar width as
    it was; when the dimension is none it changes nothing; so a call that
    follows another, for a dimension that is none or absent from the node,
    keeps the width the earlier call computed, as when a width of 50
    computed for the duration survives a change to the rows dimension on a
    node without a row count. *)
Theorem calculateBar_frame
    (duration rows cost : JS.number -> string)
    (plan : IPlan) (node : Node) (s : State) :
  (forall h,
      h <> NONE -> rawMetric h node = JS.undefined ->
      highlightValue
        (calculateBar duration rows cost {| highlightType := h |} plan node s)
      = None
      /\ barWidth
           (calculateBar duration rows cost {| highlightType := h |}
              plan node s)
         = barWidth s)
  /\ calculateBar duration rows cost {| highlightType := NONE |} plan node s
     = s
  /\ (forall h1 h2,
      h2 = NONE \/ rawMetric h2 node = JS.undefined ->
      barWidth
        (calculateBar duration rows cost {| highlightType := h2 |} plan node
           (calculateBar duration rows cost {| highlightType := h1 |}
              plan node s))
      = barWidth
          (calculateBar duration rows cost {| highlightType := h1 |}
             plan node s))
  /\ (let before :=
        calculateBar duration rows cost {| highlightType := DURATION |}
          (planOf (maximaOf 100 100 100) None)
          (nodeOf [(EXCLUSIVE_DURATION, 50)]) setup in
      let after :=
        calculateBar duration rows cost {| highlightType := ROWS |}
          (planOf (maximaOf 100 100 100) None)
          (nodeOf [(EXCLUSIVE_DURATION, 50)]) before in
      barWidth before = JS.of_Z 50
      /\ barWidth after = JS.of_Z 50
      /\ highlightValue after = None).
Proof.
  split; [|split; [|split]].
  - intros h Hh E. rewrite calculateBar_absent_label by assumption.
    split; reflexivity.
  - reflexivity.
  - intros h1 h2 [-> | E]; [reflexivity|].
    destruct h2; [reflexivity | | |];
      (rewrite (calculateBar_absent_label duration rows cost _ plan node)
         by (discriminate || exact E));
      reflexivity.
  - cbv zeta. repeat split.
Qed.

Lemma calculateBar_frame_witness :
  ROWS <> NONE
  /\ rawMetric ROWS (nodeOf [(EXCLUSIVE_DURATION, 50)]) = JS.undefined
  /\ barWidth
       (calculateBar plainLabel plainLabel plainLabel
          {| highlightType := ROWS |} (planOf (maximaOf 100 100 100) None)
          (nodeOf [(EXCLUSIVE_DURATION, 50)]) setup)
     = barWidth setup.
Proof.
  split; [discriminate|]. split; [reflexivity|].
  refine (proj2 (proj1
            (calculateBar_frame plainLabel plainLabel plainLabel
               (planOf (maximaOf 100 100 100) None)
               (nodeOf [(EXCLUSIVE_DURATION, 50)]) setup) ROWS _ eq_refl));
    discriminate.
Defined.

(* ================================================================== *)
(** * The duration percentage *)
(* ================================================================== *)

(** The execution time [calculateDuration] divides by. *)
Lemma calculateDuration_percent (plan : IPlan) (node : Node) (s : State) :
  executionTimePercent (calculateDuration plan node s)
  = JS.round
      (JS.mul
         (JS.div (JS.ToNumber (prop node EXCLUSIVE_DURATION))
                 (JS.ToNumber
                    (JS.or (executionTime (planStats plan))
                           (rootActualTotalTime plan))))
         (JS.of_Z 100)).
Proof. reflexivity. Qed.






(* ================================================================== *)
(** * The rows removed *)
(* ================================================================== *)

Lemma NodeProp_eqb_eq (a b : NodeProp) : NodeProp_eqb a b = true <-> a = b.
Proof. destruct a, b; simpl; split; intro H; congruence. Qed.

Lemma isRowsRemovedKey_true (key : NodeProp) :
  isRowsRemovedKey key = true <->
  key = ROWS_REMOVED_BY_FILTER_REVISED
  \/ key = ROWS_REMOVED_BY_JOIN_FILTER_REVISED.
Proof.
  unfold isRowsRemovedKey. rewrite orb_true_iff, !NodeProp_eqb_eq. tauto.
Qed.

(** Looking the node's key up among the members of [NodeProp] gives the key
    back: [rowsRemovedProp] is the first rows-removed key of the node. *)
Lemma rowsRemovedProp_first_key (node : Node) :
  rowsRemovedProp node = find isRowsRemovedKey (keys node).
Proof.
  unfold rowsRemovedProp. fold isRowsRemovedKey.
  destruct (find isRowsRemovedKey (keys node)) as [k|] eqn:E.
  - apply find_some in E as [_ E].
    apply isRowsRemovedKey_true in E as [-> | ->]; reflexivity.
  - reflexivity.
Qed.

(** With exactly one of the two keys on the node, it is the one chosen. *)
Lemma rowsRemovedProp_only (node : Node) (present absent : NodeProp) :
  isRowsRemovedKey present = true ->
  (forall k, isRowsRemovedKey k = true -> k = present \/ k = absent) ->
  In present (keys node) -> ~ In absent (keys node) ->
  rowsRemovedProp node = Some present.
Proof.
  intros Hp Hall Hin Hout. rewrite rowsRemovedProp_first_key.
  destruct (find isRowsRemovedKey (keys node)) as [k|] eqn:E.
  - apply find_some in E as [Hk E].
    destruct (Hall k E) as [-> | ->]; [reflexivity | contradiction].
  - pose proof (find_none _ _ E present Hin). congruence.
Qed.

Lemma rowsRemovedProp_none (node : Node) :
  ~ In ROWS_REMOVED_BY_FILTER_REVISED (keys node) ->
  ~ In ROWS_REMOVED_BY_JOIN_FILTER_REVISED (keys node) ->
  rowsRemovedProp node = None.
Proof.
  intros H1 H2. rewrite rowsRemovedProp_first_key.
  destruct (find isRowsRemovedKey (keys node)) as [k|] eqn:E;
    [|reflexivity].
  apply find_some in E as [Hk E].
  apply isRowsRemovedKey_true in E as [-> | ->]; contradiction.
Qed.

Lemma rowsRemovedProp_some (node : Node) (p : NodeProp) :
  rowsRemovedProp node = Some p ->
  In p (keys node)
  /\ (p = ROWS_REMOVED_BY_FILTER_REVISED
      \/ p = ROWS_REMOVED_BY_JOIN_FILTER_REVISED).
Proof.
  rewrite rowsRemovedProp_first_key. intro E.
  apply find_some in E as [Hk E]. split; [exact Hk|].
  now apply isRowsRemovedKey_true.
Qed.

(** What [calculateRowsRemoved] stores when a rows-removed key is there. *)
Lemma calculateRowsRemoved_present
    (other : Q -> string) (node : Node) (s : State) (p : NodeProp) :
  rowsRemovedProp node = Some p ->
  let s' := calculateRowsRemoved other node s in
  let percent := removedPercentOf (prop node p) (prop node ACTUAL_ROWS) in
  rowsRemoved s' = prop node p
  /\ rowsRemovedPercent s' = percent
  /\ rowsRemovedPercentString s'
     = Some (if JS.strict_eq percent (JS.of_Z 100) then ">99"%string
             else if JS.strict_eq percent (JS.of_Z 0) then "<1"%string
             else JS.Number_toString other percent).
Proof.
  intros E s' percent. subst s' percent.
  unfold calculateRowsRemoved. rewrite E.
  cbv beta zeta. fold (removedPercentOf (prop node p) (prop node ACTUAL_ROWS)).
  change (rowsRemovedPercent (set_rowsRemovedPercent ?x ?s)) with x.
  destruct (JS.strict_eq _ (JS.of_Z 100)); [repeat split|].
  destruct (JS.strict_eq _ (JS.of_Z 0)); repeat split.
Qed.

Lemma calculateRowsRemoved_absent
    (other : Q -> string) (node : Node) (s : State) :
  rowsRemovedProp node = None -> calculateRowsRemoved other node s = s.
Proof. unfold calculateRowsRemoved. intros ->. reflexivity. Qed.

(** The percentage of removed rows among counts: [NaN] unless both counts
    are there and their sum is positive, and then an integer in 0..100. *)
Lemma removedPercentOf_cases (removed actual : JS.value) :
  isCountOrAbsent removed -> isCountOrAbsent actual ->
  (removedPercentOf removed actual = JS.NaN
   /\ ~ (exists r a, removed = JS.Num (JS.Fin r)
                     /\ actual = JS.Num (JS.Fin a) /\ (0 < r + a)%Q))
  \/ (exists r a z,
         removed = JS.Num (JS.Fin r) /\ actual = JS.Num (JS.Fin a)
         /\ (0 < r + a)%Q /\ 0 <= z <= 100
         /\ removedPercentOf removed actual = JS.of_Z z).
Proof.
  unfold removedPercentOf.
  destruct removed as [|[| | |r]]; simpl; try contradiction; intros Hr.
  { intros _. left. split; [reflexivity|].
    intros (r & a & E & _). discriminate E. }
  destruct actual as [|[| | |a]]; simpl; try contradiction; intros Ha.
  { left. split; [reflexivity|].
    intros (r' & a' & _ & E & _). discriminate E. }
  destruct (JS.Qis_zero (r + a)) eqn:Z.
  - apply JSFacts.Qis_zero_true in Z.
    assert (Zr : (r == 0)%Q) by lra.
    apply JSFacts.Qis_zero_true in Zr. rewrite Zr.
    left. split; [reflexivity|].
    intros (r' & a' & [= <-] & [= <-] & P). lra.
  - apply JSFacts.Qis_zero_false in Z.
    assert (P : (0 < r + a)%Q).
    { destruct (Qlt_le_dec 0 (r + a)) as [P | N]; [exact P|].
      exfalso. apply Z. lra. }
    right. exists r, a, (Qfloor (r / (r + a) * inject_Z 100)).
    repeat split; try reflexivity; try exact P.
    + assert (L : (0 <= r / (r + a))%Q)
        by (apply Qle_shift_div_l; [exact P | lra]).
      set (t := (r / (r + a))%Q) in *.
      assert (E : (inject_Z 100 == 100)%Q) by reflexivity.
      change 0 with (Qfloor (inject_Z 0)). apply Qfloor_resp_le.
      rewrite E. change (inject_Z 0) with 0%Q. lra.
    + assert (U : (r / (r + a) <= 1)%Q)
        by (apply Qle_shift_div_r; [exact P | lra]).
      set (t := (r / (r + a))%Q) in *.
      assert (E : (inject_Z 100 == 100)%Q) by reflexivity.
      assert (F : (t * inject_Z 100 <= inject_Z 100)%Q) by (rewrite E; lra).
      apply Qfloor_resp_le in F. now rewrite Qfloor_Z in F.
Qed.







(** In [onBeforeMount] the state that [calculateRowsRemoved] receives still
    holds the declared [NaN] in both rows-removed refs. *)
Lemma onBeforeMount_rowsRemoved_declared
    (duration rows cost : JS.number -> string) (viewOptions : ViewOptions)
    (plan : IPlan) (node : Node) (s : State) :
  calculateCost plan node
    (calculateDuration plan node
       (calculateBar duration rows cost viewOptions plan node setup))
  = Some s ->
  rowsRemovedPercent s = JS.NaN /\ rowsRemoved s = JS.Num JS.NaN.
Proof.
  unfold calculateCost. destruct (content plan); [|discriminate].
  intros [= <-]. unfold calculateBar.
  destruct (highlightType viewOptions); simpl;
    try (split; reflexivity);
    match goal with
    | |- context [match ?v with JS.undefined => _ | JS.Num _ => _ end] =>
        destruct v; split; reflexivity
    end.
Qed.

(** C4: with the removed and the actual rows being counts where they are
    there, [calculateRowsRemoved] reads the removed rows from whichever of
    the two rows-removed keys the node has (for a node with only one of
    them), and on a state whose percentage is still [NaN], as declared, the
    percentage is a number exactly when a rows-removed key is there, the
    removed and the actual rows are both there, and their sum is positive;
    it is then an integer in 0..100.  In every other case (neither key,
    removed or actual rows absent, or a sum of 0) it is [NaN], which is not
    equal to 0. *)
Theorem rowsRemoved_defined_iff
    (other : Q -> string) (node : Node) (s : State)
    (Hs : rowsRemovedPercent s = JS.NaN)
    (Hf : isCountOrAbsent (prop node ROWS_REMOVED_BY_FILTER_REVISED))
    (Hj : isCountOrAbsent (prop node ROWS_REMOVED_BY_JOIN_FILTER_REVISED))
    (Ha : isCountOrAbsent (prop node ACTUAL_ROWS)) :
  let s' := calculateRowsRemoved other node s in
  (In ROWS_REMOVED_BY_FILTER_REVISED (keys node) ->
   ~ In ROWS_REMOVED_BY_JOIN_FILTER_REVISED (keys node) ->
   rowsRemovedProp node = Some ROWS_REMOVED_BY_FILTER_REVISED
   /\ rowsRemoved s' = prop node ROWS_REMOVED_BY_FILTER_REVISED)
  /\ (In ROWS_REMOVED_BY_JOIN_FILTER_REVISED (keys node) ->
      ~ In ROWS_REMOVED_BY_FILTER_REVISED (keys node) ->
      rowsRemovedProp node = Some ROWS_REMOVED_BY_JOIN_FILTER_REVISED
      /\ rowsRemoved s' = prop node ROWS_REMOVED_BY_JOIN_FILTER_REVISED)
  /\ (~ In ROWS_REMOVED_BY_FILTER_REVISED (keys node) ->
      ~ In ROWS_REMOVED_BY_JOIN_FILTER_REVISED (keys node) ->
      rowsRemovedProp node = None
      /\ rowsRemoved s' = rowsRemoved s
      /\ rowsRemovedPercent s' = JS.NaN)
  /\ (rowsRemovedPercent s' <> JS.NaN <->
      exists p r a,
        rowsRemovedProp node = Some p
        /\ prop node p = JS.Num (JS.Fin r)
        /\ prop node ACTUAL_ROWS = JS.Num (JS.Fin a)
        /\ (0 < r + a)%Q)
  /\ (rowsRemovedPercent s' <> JS.NaN ->
      exists z, 0 <= z <= 100 /\ rowsRemovedPercent s' = JS.of_Z z)
  /\ (rowsRemovedPercent s' = JS.NaN ->
      JS.strict_eq (rowsRemovedPercent s') (JS.of_Z 0) = false).
Proof.
  intro s'. subst s'.
  assert (Hcount : forall p, rowsRemovedProp node = Some p ->
                             isCountOrAbsent (prop node p)).
  { intros p E. apply rowsRemovedProp_some in E as [_ [-> | ->]]; assumption. }
  split; [|split; [|split; [|split; [|split]]]].
  - intros Hin Hout.
    assert (E : rowsRemovedProp node = Some ROWS_REMOVED_BY_FILTER_REVISED).
    { apply (rowsRemovedProp_only node _ ROWS_REMOVED_BY_JOIN_FILTER_REVISED);
        try assumption; [reflexivity|].
      intro k. apply isRowsRemovedKey_true. }
    split; [exact E|].
    now destruct (calculateRowsRemoved_present other node s _ E) as (H & _).
  - intros Hin Hout.
    assert (E : rowsRemovedProp node
                = Some ROWS_REMOVED_BY_JOIN_FILTER_REVISED).
    { apply (rowsRemovedProp_only node _ ROWS_REMOVED_BY_FILTER_REVISED);
        try assumption; [reflexivity|].
      intros k H. apply isRowsRemovedKey_true in H. tauto. }
    split; [exact E|].
    now destruct (calculateRowsRemoved_present other node s _ E) as (H & _).
  - intros H1 H2. pose proof (rowsRemovedProp_none node H1 H2) as E.
    rewrite (calculateRowsRemoved_absent other node s E).
    repeat split; assumption.
  - destruct (rowsRemovedProp node) as [p|] eqn:E.
    + destruct (calculateRowsRemoved_present other node s p E)
        as (_ & Ep & _).
      rewrite Ep.
      destruct (removedPercentOf_cases _ _ (Hcount p eq_refl) Ha)
        as [[En Hn] | (r & a & z & Er & Ea & P & _ & Ez)].
      * split; [congruence|].
        intros (p' & r & a & [= <-] & Er & Ea & P). exfalso. apply Hn.
        now exists r, a.
      * split; [|rewrite Ez; discriminate].
        intros _. now exists p, r, a.
    + rewrite (calculateRowsRemoved_absent other node s E).
      split; [congruence|].
      intros (p & _ & _ & [=] & _).
  - destruct (rowsRemovedProp node) as [p|] eqn:E.
    + destruct (calculateRowsRemoved_present other node s p E)
        as (_ & Ep & _).
      rewrite Ep.
      destruct (removedPercentOf_cases _ _ (Hcount p eq_refl) Ha)
        as [[En _] | (r & a & z & _ & _ & _ & B & Ez)].
      * congruence.
      * intros _. now exists z.
    + rewrite (calculateRowsRemoved_absent other node s E). congruence.
  - intros ->. reflexivity.
Qed.

Lemma rowsRemoved_defined_iff_witness :
  rowsRemovedPercent setup = JS.NaN
  /\ rowsRemovedPercent
       (calculateRowsRemoved noOther
          (nodeOf [(ACTUAL_ROWS, 50);
                   (ROWS_REMOVED_BY_JOIN_FILTER_REVISED, 50)])
          setup)
     <> JS.NaN.
Proof.
  split; [reflexivity|].
  refine (proj2 (proj1 (proj2 (proj2 (proj2
            (rowsRemoved_defined_iff noOther
               (nodeOf [(ACTUAL_ROWS, 50);
                        (ROWS_REMOVED_BY_JOIN_FILTER_REVISED, 50)])
               setup eq_refl _ _ _)))))
            _);
    try exact I; try (cbv; discriminate).
  exists ROWS_REMOVED_BY_JOIN_FILTER_REVISED, (inject_Z 50), (inject_Z 50).
  repeat split.
Defined.

(* ================================================================== *)
(** * The calculations together *)
(* ================================================================== *)

(** X1: [calculateCost] throws exactly when the plan has no content;
    otherwise, for an exclusive cost [v] within a positive maximum total
    cost [m], the cost percentage it stores is an integer from 0 to 100. *)
Theorem calculateCost_percent (plan : IPlan) (node : Node) (s : State) :
  (calculateCost plan node s = None <-> content plan = None)
  /\ (forall c v m,
      content plan = Some c ->
      prop node EXCLUSIVE_COST = JS.Num (JS.Fin v) ->
      maxTotalCost c = JS.Num (JS.Fin m) ->
      (0 < m)%Q -> (0 <= v)%Q -> (v <= m)%Q ->
      exists s' z,
        calculateCost plan node s = Some s'
        /\ costPercent s' = JS.of_Z z /\ 0 <= z <= 100).
Proof.
  unfold calculateCost. split.
  - destruct (content plan); split; intro H; try discriminate; reflexivity.
  - intros c v m -> Ev Em Pm H0 H1. rewrite Ev, Em. simpl.
    rewrite (JSFacts.Qis_zero_pos m Pm). simpl.
    eexists. eexists. split; [reflexivity|]. split; [reflexivity|].
    now apply Qfloor_percent_bounds.
Qed.

Lemma calculateCost_percent_witness :
  exists s' z,
    calculateCost
      {| planStats := noStats;
         content := Some {| Plan := None;
                            maxTotalCost := JS.Num (JS.of_Z 200) |} |}
      (nodeOf [(EXCLUSIVE_COST, 50)]) setup = Some s'
    /\ costPercent s' = JS.of_Z z /\ 0 <= z <= 100.
Proof.
  refine (proj2 (calculateCost_percent
                   {| planStats := noStats;
                      content := Some {| Plan := None;
                                         maxTotalCost :=
                                           JS.Num (JS.of_Z 200) |} |}
                   (nodeOf [(EXCLUSIVE_COST, 50)]) setup)
            _ (inject_Z 50) (inject_Z 200) eq_refl eq_refl eq_refl _ _ _);
    cbv; (reflexivity || discriminate).
Defined.

(** What each calculation leaves alone. *)
Lemma calculateBar_touches
    (duration rows cost : JS.number -> string) (viewOptions : ViewOptions)
    (plan : IPlan) (node : Node) (s : State) :
  let s' := calculateBar duration rows cost viewOptions plan node s in
  executionTimePercent s' = executionTimePercent s
  /\ costPercent s' = costPercent s
  /\ rowsRemoved s' = rowsRemoved s
  /\ rowsRemovedPercent s' = rowsRemovedPercent s
  /\ rowsRemovedPercentString s' = rowsRemovedPercentString s.
Proof.
  unfold calculateBar.
  destruct (highlightType viewOptions); simpl;
    try (repeat split; reflexivity);
    match goal with
    | |- context [match ?v with JS.undefined => _ | JS.Num _ => _ end] =>
        destruct v; repeat split; reflexivity
    end.
Qed.

Lemma calculateRowsRemoved_touches
    (other : Q -> string) (node : Node) (s : State) :
  let s' := calculateRowsRemoved other node s in
  executionTimePercent s' = executionTimePercent s
  /\ costPercent s' = costPercent s
  /\ barWidth s' = barWidth s
  /\ highlightValue s' = highlightValue s.
Proof.
  unfold calculateRowsRemoved.
  destruct (rowsRemovedProp node); [|repeat split; reflexivity].
  cbv zeta.
  destruct (JS.strict_eq _ (JS.of_Z 100)); [repeat split; reflexivity|].
  destruct (JS.strict_eq _ (JS.of_Z 0)); repeat split; reflexivity.
Qed.

(** The refs [calculateRowsRemoved] writes do not depend on the state it
    starts from, when a rows-removed key is there. *)
Lemma calculateRowsRemoved_from_any
    (other : Q -> string) (node : Node) (s1 s2 : State) :
  rowsRemovedProp node <> None ->
  let a := calculateRowsRemoved other node s1 in
  let b := calculateRowsRemoved other node s2 in
  rowsRemoved a = rowsRemoved b
  /\ rowsRemovedPercent a = rowsRemovedPercent b
  /\ rowsRemovedPercentString a = rowsRemovedPercentString b.
Proof.
  intros H a b. subst a b.
  destruct (rowsRemovedProp node) as [p|] eqn:E; [|congruence].
  destruct (calculateRowsRemoved_present other node s1 p E) as (A1 & A2 & A3).
  destruct (calculateRowsRemoved_present other node s2 p E) as (B1 & B2 & B3).
  rewrite A1, A2, A3, B1, B2, B3. repeat split.
Qed.

(** X2: the four calculations of [onBeforeMount] write different refs, so
    each ref of the mounted state is what its own calculation gives on the
    refs as declared: the order of the four calls does not matter.
    [onBeforeMount] fails exactly when the plan has no content. *)
Theorem onBeforeMount_by_parts
    (duration rows cost : JS.number -> string) (other : Q -> string)
    (viewOptions : ViewOptions) (plan : IPlan) (node : Node) :
  (onBeforeMount duration rows cost other viewOptions plan node = None
   <-> content plan = None)
  /\ (forall s,
      onBeforeMount duration rows cost other viewOptions plan node = Some s ->
      let bar := calculateBar duration rows cost viewOptions plan node setup in
      let removed := calculateRowsRemoved other node setup in
      barWidth s = barWidth bar
      /\ highlightValue s = highlightValue bar
      /\ executionTimePercent s
         = executionTimePercent (calculateDuration plan node setup)
      /\ Some (costPercent s)
         = option_map costPercent (calculateCost plan node setup)
      /\ rowsRemoved s = rowsRemoved removed
      /\ rowsRemovedPercent s = rowsRemovedPercent removed
      /\ rowsRemovedPercentString s = rowsRemovedPercentString removed).
Proof.
  unfold onBeforeMount, calculateCost. split.
  - destruct (content plan); split; intro H; try discriminate; reflexivity.
  - intros s. destruct (content plan) as [c|]; [|discriminate].
    intros [= <-]. cbv zeta.
    set (bar := calculateBar duration rows cost viewOptions plan node setup).
    pose proof (calculateBar_touches duration rows cost viewOptions plan node
                  setup) as T. cbv zeta in T. fold bar in T.
    destruct T as (T1 & T2 & T3 & T4 & T5).
    set (mid := set_costPercent _ (calculateDuration plan node bar)).
    destruct (calculateRowsRemoved_touches other node mid)
      as (R1 & R2 & R3 & R4).
    rewrite R1, R2, R3, R4.
    split; [reflexivity|]. split; [reflexivity|].
    split; [reflexivity|]. split; [reflexivity|].
    unfold calculateRowsRemoved.
    destruct (rowsRemovedProp node) as [p|]; [|repeat split; assumption].
    cbv zeta.
    change (rowsRemovedPercent (set_rowsRemovedPercent ?x ?t)) with x.
    destruct (JS.strict_eq _ (JS.of_Z 100)); [repeat split|].
    destruct (JS.strict_eq _ (JS.of_Z 0)); repeat split.
Qed.

Lemma onBeforeMount_by_parts_witness :
  exists s,
    onBeforeMount plainLabel plainLabel plainLabel noOther
      {| highlightType := DURATION |} (planOf (maximaOf 100 100 100) None)
      (nodeOf [(EXCLUSIVE_DURATION, 50)]) = Some s
    /\ barWidth s
       = barWidth
           (calculateBar plainLabel plainLabel plainLabel
              {| highlightType := DURATION |}
              (planOf (maximaOf 100 100 100) None)
              (nodeOf [(EXCLUSIVE_DURATION, 50)]) setup).
Proof.
  eexists. split; [reflexivity|].
  exact (proj1 (proj2 (onBeforeMount_by_parts plainLabel plainLabel plainLabel
                         noOther {| highlightType := DURATION |}
                         (planOf (maximaOf 100 100 100) None)
                         (nodeOf [(EXCLUSIVE_DURATION, 50)])) _ eq_refl)).
Defined.

(** X3: [calculateBar] run again changes nothing, which is what the watcher
    on the highlight type relies on; and for a dimension whose raw metric is
    on the node, the bar and the label do not depend on the dimension shown
    before. *)
Theorem calculateBar_again
    (duration rows cost : JS.number -> string)
    (plan : IPlan) (node : Node) (s : State) (h : HighlightType) :
  calculateBar duration rows cost {| highlightType := h |} plan node
    (calculateBar duration rows cost {| highlightType := h |} plan node s)
  = calculateBar duration rows cost {| highlightType := h |} plan node s
  /\ (forall h0,
      rawMetric h node <> JS.undefined ->
      calculateBar duration rows cost {| highlightType := h |} plan node
        (calculateBar duration rows cost {| highlightType := h0 |}
           plan node s)
      = calculateBar duration rows cost {| highlightType := h |} plan node s).
Proof.
  split.
  - unfold calculateBar; simpl. destruct h; simpl; try reflexivity;
      match goal with
      | |- context [match ?v with JS.undefined => _ | JS.Num _ => _ end] =>
          destruct v; reflexivity
      end.
  - intros h0 Hv.
    pose proof (calculateBar_touches duration rows cost
                  {| highlightType := h0 |} plan node s) as T.
    cbv zeta in T. destruct T as (T1 & T2 & T3 & T4 & T5).
    unfold calculateBar at 1 3; simpl. destruct h; simpl in Hv |- *;
      try congruence;
      match goal with
      | |- context [match ?v with JS.undefined => _ | JS.Num _ => _ end] =>
          destruct v; [congruence|]
      end;
      unfold set_highlightValue, set_barWidth; simpl;
      rewrite T1, T2, T3, T4, T5; reflexivity.
Qed.

Lemma calculateBar_again_witness :
  rawMetric DURATION (nodeOf [(EXCLUSIVE_DURATION, 50)]) <> JS.undefined
  /\ calculateBar plainLabel plainLabel plainLabel
       {| highlightType := DURATION |} (planOf (maximaOf 100 100 100) None)
       (nodeOf [(EXCLUSIVE_DURATION, 50)])
       (calculateBar plainLabel plainLabel plainLabel
          {| highlightType := ROWS |} (planOf (maximaOf 100 100 100) None)
          (nodeOf [(EXCLUSIVE_DURATION, 50)]) setup)
     = calculateBar plainLabel plainLabel plainLabel
         {| highlightType := DURATION |} (planOf (maximaOf 100 100 100) None)
         (nodeOf [(EXCLUSIVE_DURATION, 50)]) setup.
Proof.
  assert (H : rawMetric DURATION (nodeOf [(EXCLUSIVE_DURATION, 50)])
              <> JS.undefined) by discriminate.
  split; [exact H|].
  exact (proj2 (calculateBar_again plainLabel plainLabel plainLabel
                  (planOf (maximaOf 100 100 100) None)
                  (nodeOf [(EXCLUSIVE_DURATION, 50)]) setup DURATION)
           ROWS H).
Defined.

(* ================================================================== *)
(** * What the classes say about the node *)
(* ================================================================== *)

Lemma Qfloor_ge_iff (n : Z) (y : Q) : n <= Qfloor y <-> (inject_Z n <= y)%Q.
Proof.
  split; intro H.
  - apply Qle_trans with (inject_Z (Qfloor y)); [|apply Qfloor_le].
    now rewrite <- Zle_Qle.
  - apply Qfloor_resp_le in H. now rewrite Qfloor_Z in H.
Qed.

Lemma Qdiv_ge_iff (k d e : Q) :
  (0 < e)%Q -> ((k <= d / e)%Q <-> (k * e <= d)%Q).
Proof.
  intro He.
  assert (E : (d == d / e * e)%Q) by (field; lra).
  rewrite E at 2. symmetry. now apply Qmult_le_r.
Qed.

(** In the exact arithmetic of the model, the rounded percentage exceeds
    [k] exactly when the share reaches [k + 1/2] percent. *)
Lemma round_percent_gt (d e : Q) (k : Z) :
  (0 < e)%Q ->
  JS.gt (JS.of_Z (Qfloor (d / e * inject_Z 100 + (1 # 2)))) (JS.of_Z k) = true
  <-> ((2 * k + 1 # 200) * e <= d)%Q.
Proof.
  intro He. unfold JS.gt. rewrite JSFacts.compare_of_Z.
  rewrite <- Qdiv_ge_iff by exact He.
  set (x := (d / e)%Q).
  change (inject_Z 100) with 100%Q.
  assert (K : ((2 * k + 1 # 200) == (2 * inject_Z k + 1) * (1 # 200))%Q).
  { rewrite Qmake_Qdiv, inject_Z_plus, inject_Z_mult. unfold Qdiv.
    reflexivity. }
  assert (K1 : (inject_Z (k + 1) == inject_Z k + 1)%Q).
  { rewrite inject_Z_plus. reflexivity. }
  pose proof (Qfloor_ge_iff (k + 1) (x * 100 + (1 # 2))) as F.
  rewrite K1 in F. rewrite K.
  set (q := inject_Z k) in *.
  assert (S : (q + 1 <= x * 100 + (1 # 2))%Q
              <-> ((2 * q + 1) * (1 # 200) <= x)%Q).
  { split; intro H; lra. }
  rewrite <- S, <- F. clear S F K K1.
  set (z := Qfloor (x * 100 + (1 # 2))). clearbody z. clear x q.
  destruct (Z.compare_spec z k) as [C | C | C].
  - split; [discriminate | intro; exfalso; lia].
  - split; [discriminate | intro; exfalso; lia].
  - split; [intro; lia | reflexivity].
Qed.

(** The three-step percent ladder on a rounded share, in the exact
    arithmetic of the model. *)
Lemma percent_ladder_by_share (d e : Q) :
  (0 < e)%Q ->
  let class :=
    classOf
      (let i := JS.of_Z (Qfloor (d / e * inject_Z 100 + (1 # 2))) in
       if JS.gt i (JS.of_Z 90) then Some 4
       else if JS.gt i (JS.of_Z 40) then Some 3
       else if JS.gt i (JS.of_Z 10) then Some 2
       else None) in
  (class = Some "c-4"%string <-> ((181 # 200) * e <= d)%Q)
  /\ (class = Some "c-3"%string <->
      ((81 # 200) * e <= d)%Q /\ (d < (181 # 200) * e)%Q)
  /\ (class = Some "c-2"%string <->
      ((21 # 200) * e <= d)%Q /\ (d < (81 # 200) * e)%Q)
  /\ (class = None <-> (d < (21 # 200) * e)%Q).
Proof.
  intros Pe class. subst class. cbv zeta.
  pose proof (round_percent_gt d e 90 Pe) as G90.
  pose proof (round_percent_gt d e 40 Pe) as G40.
  pose proof (round_percent_gt d e 10 Pe) as G10.
  change (2 * 90 + 1 # 200) with (181 # 200) in G90.
  change (2 * 40 + 1 # 200) with (81 # 200) in G40.
  change (2 * 10 + 1 # 200) with (21 # 200) in G10.
  destruct (JS.gt _ (JS.of_Z 90)).
  { assert (A : ((181 # 200) * e <= d)%Q) by now apply G90.
    rewrite classOf_4.
    repeat split; intros; try discriminate; try assumption; exfalso; lra. }
  assert (A : (d < (181 # 200) * e)%Q).
  { apply Qnot_le_lt. intro H. apply G90 in H. discriminate. }
  destruct (JS.gt _ (JS.of_Z 40)).
  { assert (B : ((81 # 200) * e <= d)%Q) by now apply G40.
    rewrite classOf_3.
    repeat split; intros; try discriminate; try assumption; exfalso; lra. }
  assert (B : (d < (81 # 200) * e)%Q).
  { apply Qnot_le_lt. intro H. apply G40 in H. discriminate. }
  destruct (JS.gt _ (JS.of_Z 10)).
  { assert (C : ((21 # 200) * e <= d)%Q) by now apply G10.
    rewrite classOf_2.
    repeat split; intros; try discriminate; try assumption; exfalso; lra. }
  assert (C : (d < (21 # 200) * e)%Q).
  { apply Qnot_le_lt. intro H. apply G10 in H. discriminate. }
  simpl.
  repeat split; intros; try discriminate; try assumption; exfalso; lra.
Qed.

(** The class of a rounded share, between whole percents: the half-percent
    marks of the exact ladder lie strictly between them. *)
Lemma percent_ladder_between (d e : Q) (class : option string) :
  (0 < e)%Q ->
  (class = Some "c-4"%string <-> ((181 # 200) * e <= d)%Q) ->
  (class = Some "c-3"%string <->
   ((81 # 200) * e <= d)%Q /\ (d < (181 # 200) * e)%Q) ->
  (class = Some "c-2"%string <->
   ((21 # 200) * e <= d)%Q /\ (d < (81 # 200) * e)%Q) ->
  (class = None <-> (d < (21 # 200) * e)%Q) ->
  (((91 # 100) * e <= d)%Q -> class = Some "c-4"%string)
  /\ (class = Some "c-4"%string -> ((90 # 100) * e < d)%Q)
  /\ (((41 # 100) * e <= d)%Q ->
      class = Some "c-3"%string \/ class = Some "c-4"%string)
  /\ (class = Some "c-3"%string \/ class = Some "c-4"%string ->
      ((40 # 100) * e < d)%Q)
  /\ (((11 # 100) * e <= d)%Q -> class <> None)
  /\ (class <> None -> ((10 # 100) * e < d)%Q).
Proof.
  intros Pe C4 C3 C2 C0. repeat apply conj.
  - intro H. apply C4. lra.
  - intro H. apply C4 in H. lra.
  - intro H. destruct (Qlt_le_dec d ((181 # 200) * e)) as [L | L].
    + left. apply C3. split; lra.
    + right. now apply C4.
  - intros [H | H]; [apply C3 in H | apply C4 in H]; lra.
  - intros H N. apply C0 in N. lra.
  - intro H. apply Qnot_le_lt. intro N. apply H, C0. lra.
Qed.

(** X4: with a positive finite execution time [e] (the plan's, or the root's
    total time), the duration class of a node of exclusive duration [d]
    goes by the share [d / e], each step being taken between two whole
    percents: from 91 percent on the class is [c-4], and [c-4] needs more
    than 90 percent; from 41 percent on it is [c-3] or [c-4], which need
    more than 40 percent; from 11 percent on there is a class, and a class
    needs more than 10 percent. *)
Theorem durationClass_by_share (plan : IPlan) (node : Node) (s : State)
    (d e : Q)
    (Hd : prop node EXCLUSIVE_DURATION = JS.Num (JS.Fin d))
    (He : JS.or (executionTime (planStats plan)) (rootActualTotalTime plan)
          = JS.Num (JS.Fin e))
    (Pe : (0 < e)%Q) :
  let class := durationClass (calculateDuration plan node s) in
  (((91 # 100) * e <= d)%Q -> class = Some "c-4"%string)
  /\ (class = Some "c-4"%string -> ((90 # 100) * e < d)%Q)
  /\ (((41 # 100) * e <= d)%Q ->
      class = Some "c-3"%string \/ class = Some "c-4"%string)
  /\ (class = Some "c-3"%string \/ class = Some "c-4"%string ->
      ((40 # 100) * e < d)%Q)
  /\ (((11 # 100) * e <= d)%Q -> class <> None)
  /\ (class <> None -> ((10 # 100) * e < d)%Q).
Proof.
  intro class.
  assert (L : (class = Some "c-4"%string <-> ((181 # 200) * e <= d)%Q)
              /\ (class = Some "c-3"%string <->
                  ((81 # 200) * e <= d)%Q /\ (d < (181 # 200) * e)%Q)
              /\ (class = Some "c-2"%string <->
                  ((21 # 200) * e <= d)%Q /\ (d < (81 # 200) * e)%Q)
              /\ (class = None <-> (d < (21 # 200) * e)%Q)).
  { subst class. unfold durationClass.
    rewrite calculateDuration_percent, Hd, He.
    simpl JS.ToNumber. rewrite JSFacts.div_Fin_pos by exact Pe.
    exact (percent_ladder_by_share d e Pe). }
  destruct L as (C4 & C3 & C2 & C0).
  exact (percent_ladder_between d e class Pe C4 C3 C2 C0).
Qed.

Lemma durationClass_by_share_witness :
  durationClass
    (calculateDuration (planOf (timedStats 200) None)
       (nodeOf [(EXCLUSIVE_DURATION, 182)]) setup)
  = Some "c-4"%string.
Proof.
  refine (proj1
            (durationClass_by_share (planOf (timedStats 200) None)
               (nodeOf [(EXCLUSIVE_DURATION, 182)]) setup
               (inject_Z 182) (inject_Z 200) eq_refl eq_refl _) _);
    cbv; (reflexivity || discriminate).
Defined.

(** X5: the cost class goes by the share of the maximum total cost in the
    same way: for an exclusive cost [v] and a positive finite maximum [m],
    from 91 percent on the class is [c-4], and [c-4] needs more than 90
    percent; from 41 percent on it is [c-3] or [c-4], which need more than
    40 percent; from 11 percent on there is a class, and a class needs more
    than 10 percent. *)
Theorem costClass_by_share (plan : IPlan) (node : Node) (s s' : State)
    (c : Content) (v m : Q)
    (Hc : content plan = Some c)
    (Hv : prop node EXCLUSIVE_COST = JS.Num (JS.Fin v))
    (Hm : maxTotalCost c = JS.Num (JS.Fin m))
    (Pm : (0 < m)%Q)
    (Hs : calculateCost plan node s = Some s') :
  let class := costClass s' in
  (((91 # 100) * m <= v)%Q -> class = Some "c-4"%string)
  /\ (class = Some "c-4"%string -> ((90 # 100) * m < v)%Q)
  /\ (((41 # 100) * m <= v)%Q ->
      class = Some "c-3"%string \/ class = Some "c-4"%string)
  /\ (class = Some "c-3"%string \/ class = Some "c-4"%string ->
      ((40 # 100) * m < v)%Q)
  /\ (((11 # 100) * m <= v)%Q -> class <> None)
  /\ (class <> None -> ((10 # 100) * m < v)%Q).
Proof.
  intro class.
  assert (L : (class = Some "c-4"%string <-> ((181 # 200) * m <= v)%Q)
              /\ (class = Some "c-3"%string <->
                  ((81 # 200) * m <= v)%Q /\ (v < (181 # 200) * m)%Q)
              /\ (class = Some "c-2"%string <->
                  ((21 # 200) * m <= v)%Q /\ (v < (81 # 200) * m)%Q)
              /\ (class = None <-> (v < (21 # 200) * m)%Q)).
  { subst class. unfold calculateCost in Hs. rewrite Hc, Hv, Hm in Hs.
    injection Hs as <-. unfold costClass.
    change (costPercent (set_costPercent ?x ?t)) with x.
    simpl JS.ToNumber. rewrite (JSFacts.Qis_zero_pos m Pm).
    exact (percent_ladder_by_share v m Pm). }
  destruct L as (C4 & C3 & C2 & C0).
  exact (percent_ladder_between v m class Pm C4 C3 C2 C0).
Qed.

Lemma costClass_by_share_witness :
  exists s',
    calculateCost
      {| planStats := noStats;
         content := Some {| Plan := None;
                            maxTotalCost := JS.Num (JS.of_Z 200) |} |}
      (nodeOf [(EXCLUSIVE_COST, 30)]) setup = Some s'
    /\ costClass s' <> None.
Proof.
  eexists. split; [reflexivity|].
  refine (proj1 (proj2 (proj2 (proj2 (proj2
            (costClass_by_share
               {| planStats := noStats;
                  content := Some {| Plan := None;
                                     maxTotalCost := JS.Num (JS.of_Z 200) |} |}
               (nodeOf [(EXCLUSIVE_COST, 30)]) setup _
               {| Plan := None; maxTotalCost := JS.Num (JS.of_Z 200) |}
               (inject_Z 30) (inject_Z 200)
               eq_refl eq_refl eq_refl _ eq_refl))))) _);
    cbv; (reflexivity || discriminate).
Defined.

(** A product with a percentage from 0 to 100 exceeds [t] only if the other
    factor exceeds [t / 100]. *)
Lemma mul_percent_gt (z : Z) (d : JS.number) (t k : Z) :
  0 <= z <= 100 -> 0 <= k -> 100 * k <= t ->
  JS.gt (JS.mul (JS.of_Z z) d) (JS.of_Z t) = true ->
  JS.gt d (JS.of_Z k) = true.
Proof.
  intros [Z0 Z1] K0 KT. unfold JS.of_Z.
  destruct d as [| | |q]; simpl.
  - discriminate.
  - reflexivity.
  - destruct (JS.Qis_zero (inject_Z z)); [discriminate|].
    unfold JS.Qis_neg; simpl.
    assert (E : (z <? 0) = false) by (apply Z.ltb_ge; exact Z0).
    rewrite E. discriminate.
  - rewrite !JSFacts.gt_Fin. intro H.
    apply Qnot_le_lt. intro N.
    rewrite Zle_Qle in Z0, Z1, K0, KT. rewrite inject_Z_mult in KT.
    change (inject_Z 0) with 0%Q in *. change (inject_Z 100) with 100%Q in *.
    set (a := inject_Z z) in *. set (b := inject_Z k) in *.
    set (c := inject_Z t) in *.
    assert (P : (a * q <= a * b)%Q).
    { rewrite !(Qmult_comm a). apply Qmult_le_compat_r; assumption. }
    assert (P2 : (a * b <= 100 * b)%Q).
    { apply Qmult_le_compat_r; assumption. }
    lra.
Qed.

(** X6: a node is given a rows-removed class only when its duration counts:
    for removed and actual rows that are counts, the class is there only if
    the duration percentage exceeds 5, and it is [c-4] only if the duration
    percentage exceeds 20. *)
Theorem rowsRemovedClass_needs_duration
    (other : Q -> string) (node : Node) (s : State) (p : NodeProp)
    (Hp : rowsRemovedProp node = Some p)
    (Hr : isCountOrAbsent (prop node p))
    (Ha : isCountOrAbsent (prop node ACTUAL_ROWS)) :
  let s' := calculateRowsRemoved other node s in
  (rowsRemovedClass s' <> None ->
   JS.gt (executionTimePercent s') (JS.of_Z 5) = true)
  /\ (rowsRemovedClass s' = Some "c-4"%string ->
      JS.gt (executionTimePercent s') (JS.of_Z 20) = true).
Proof.
  intro s'. subst s'.
  destruct (calculateRowsRemoved_present other node s p Hp) as (_ & Ep & _).
  unfold rowsRemovedClass, rowsRemovedScore. rewrite Ep.
  set (d := executionTimePercent _).
  destruct (removedPercentOf_cases _ _ Hr Ha)
    as [[E _] | (r & a & z & _ & _ & _ & B & E)]; rewrite E.
  - simpl. split; [congruence | discriminate].
  - destruct (JS.gt (JS.mul (JS.of_Z z) d) (JS.of_Z 2000)) eqn:G1.
    + split; intros _.
      * apply (mul_percent_gt z d 2000 5 B); [lia | lia | exact G1].
      * apply (mul_percent_gt z d 2000 20 B); [lia | lia | exact G1].
    + destruct (JS.gt (JS.mul (JS.of_Z z) d) (JS.of_Z 500)) eqn:G2.
      * split; [intros _ | discriminate].
        apply (mul_percent_gt z d 500 5 B); [lia | lia | exact G2].
      * simpl. split; [congruence | discriminate].
Qed.

Lemma rowsRemovedClass_needs_duration_witness :
  rowsRemovedClass
    (calculateRowsRemoved noOther
       (nodeOf [(ACTUAL_ROWS, 10); (ROWS_REMOVED_BY_FILTER_REVISED, 90)])
       (set_executionTimePercent (JS.of_Z 30) setup))
  = Some "c-4"%string
  /\ JS.gt
       (executionTimePercent
          (calculateRowsRemoved noOther
             (nodeOf [(ACTUAL_ROWS, 10); (ROWS_REMOVED_BY_FILTER_REVISED, 90)])
             (set_executionTimePercent (JS.of_Z 30) setup)))
       (JS.of_Z 20) = true.
Proof.
  split; [reflexivity|].
  refine (proj2 (rowsRemovedClass_needs_duration noOther
                   (nodeOf [(ACTUAL_ROWS, 10);
                            (ROWS_REMOVED_BY_FILTER_REVISED, 90)])
                   (set_executionTimePercent (JS.of_Z 30) setup)
                   ROWS_REMOVED_BY_FILTER_REVISED eq_refl _ _) eq_refl);
    cbv; discriminate.
Defined.

(** X7: on the state [calculateRowsRemoved] leaves from the refs as
    declared, whenever one of the two filter icons is shown the tooltip has
    a percentage to show, never "undefined"; and the two icons are never
    shown together. *)
Theorem filterTooltip_defined
    (other : Q -> string) (node : Node) (s : State)
    (Hs1 : rowsRemoved s = JS.Num JS.NaN)
    (Hs2 : rowsRemovedPercent s = JS.NaN) :
  let s' := calculateRowsRemoved other node s in
  (filterAlertShown s' = true \/ filterMutedShown s' = true ->
   exists text,
     rowsRemovedPercentString s' = Some text
     /\ filterTooltip s' = (text ++ "% of rows removed by filter")%string)
  /\ (filterAlertShown s' && filterMutedShown s' = false).
Proof.
  intro s'. subst s'. split.
  - destruct (rowsRemovedProp node) as [p|] eqn:E.
    + intros _.
      destruct (calculateRowsRemoved_present other node s p E)
        as (_ & _ & Es).
      unfold filterTooltip. rewrite Es. eexists. split; reflexivity.
    + rewrite (calculateRowsRemoved_absent other node s E).
      unfold filterAlertShown, filterMutedShown, rowsRemovedClass,
        rowsRemovedScore.
      rewrite Hs1, Hs2. simpl. intros [H | H]; discriminate.
  - unfold filterAlertShown, filterMutedShown.
    destruct (badgeShown _); [apply andb_false_r | reflexivity].
Qed.

Lemma filterTooltip_defined_witness :
  filterMutedShown
    (calculateRowsRemoved noOther
       (nodeOf [(ACTUAL_ROWS, 50); (ROWS_REMOVED_BY_FILTER_REVISED, 50)])
       setup) = true
  /\ filterTooltip
       (calculateRowsRemoved noOther
          (nodeOf [(ACTUAL_ROWS, 50); (ROWS_REMOVED_BY_FILTER_REVISED, 50)])
          setup)
     = "50% of rows removed by filter"%string.
Proof.
  split; [reflexivity|].
  destruct (proj1 (filterTooltip_defined noOther
                     (nodeOf [(ACTUAL_ROWS, 50);
                              (ROWS_REMOVED_BY_FILTER_REVISED, 50)])
                     setup eq_refl eq_refl) (or_intror eq_refl))
    as (text & E1 & E2).
  rewrite E2. injection E1 as <-. reflexivity.
Defined.

(** X8: a node with several loops is never marked as never executed: the
    tilde and the never-executed label are not shown together. *)
Theorem severalLoops_was_executed (plan : IPlan) (node : Node) :
  hasSeveralLoops node = true -> isNeverExecuted plan node = false.
Proof.
  unfold hasSeveralLoops, isNeverExecuted. intro H.
  destruct (prop node ACTUAL_LOOPS) as [|[| | |q]]; try discriminate.
  - now rewrite andb_false_r.
  - apply JSFacts.gt_Fin in H. simpl.
    assert (Z : JS.Qis_zero q = false).
    { apply JSFacts.Qis_zero_pos. change (inject_Z 1) with 1%Q in H. lra. }
    rewrite Z. apply andb_false_r.
Qed.

Lemma severalLoops_was_executed_witness :
  hasSeveralLoops (nodeOf [(ACTUAL_LOOPS, 3)]) = true
  /\ isNeverExecuted (planOf (timedStats 12) None)
       (nodeOf [(ACTUAL_LOOPS, 3)]) = false
  /\ tilde (nodeOf [(ACTUAL_LOOPS, 3)]) = "~"%string.
Proof.
  split; [reflexivity|]. split; [|reflexivity].
  exact (severalLoops_was_executed (planOf (timedStats 12) None)
           (nodeOf [(ACTUAL_LOOPS, 3)]) eq_refl).
Defined.

(* ================================================================== *)
(** * The worker boxes *)
(* ================================================================== *)

Lemma number_ge_of_Z (a b : Z) :
  number_ge (JS.of_Z a) (JS.of_Z b) = (b <=? a).
Proof.
  unfold number_ge. rewrite JSFacts.compare_of_Z.
  rewrite (Z.leb_compare b a), (Z.compare_antisym a b).
  destruct (a ?= b); reflexivity.
Qed.

Lemma Array_length_of_Z (n : Z) :
  0 <= n < 2 ^ 32 ->
  Array_length (JS.Num (JS.of_Z n)) = Some (Z.to_nat n).
Proof.
  intros [H0 H1]. unfold Array_length, JS.of_Z.
  rewrite JSFacts.Qis_integer_inject_Z, JSFacts.Qfloor_inject_Z.
  apply Z.leb_le in H0. apply Z.ltb_lt in H1. now rewrite H0, H1.
Qed.

Lemma NoDup_map_of_nat (l : list nat) : NoDup l -> NoDup (map Z.of_nat l).
Proof.
  induction 1 as [|a l Ha Hl IH]; simpl; constructor; [|exact IH].
  rewrite in_map_iff. intros (b & E & Hb).
  apply Nat2Z.inj in E. now subst b.
Qed.

(** The indexes [n - 1] down to [0], and how many of them reach [launched]. *)
Lemma descending_indexes (n : nat) :
  List.length (rev (map Z.of_nat (seq 0 n))) = n
  /\ (forall i, In i (rev (map Z.of_nat (seq 0 n))) <->
                0 <= i < Z.of_nat n)
  /\ NoDup (rev (map Z.of_nat (seq 0 n))).
Proof.
  split; [now rewrite length_rev, length_map, length_seq|].
  split.
  - intro i. rewrite <- in_rev, in_map_iff. split.
    + intros (k & <- & Hk). apply in_seq in Hk. lia.
    + intros H. exists (Z.to_nat i). split; [lia|]. apply in_seq. lia.
  - apply NoDup_rev, NoDup_map_of_nat, seq_NoDup.
Qed.

Lemma dashed_count (launched : Z) (n : nat) :
  0 <= launched ->
  List.length
    (filter (fun index => launched <=? index)
       (rev (map Z.of_nat (seq 0 n))))
  = (n - Z.to_nat launched)%nat.
Proof.
  intro H. induction n as [|n IH]; [reflexivity|].
  rewrite seq_S, map_app, rev_app_distr.
  cbn [map rev app Nat.add filter].
  destruct (Z.leb_spec launched (Z.of_nat n));
    cbn [List.length]; rewrite IH; lia.
Qed.

(** X9: for a node with a whole number [n] of workers planned by its gather
    node, from 1 up, the template shows [n] boxes, numbered [n - 1] down to
    0, each number once; with a worker list of [launched] entries a box is
    dashed exactly when its number is at least [launched], so [n - launched]
    boxes are dashed; without a worker list no box is dashed. *)
Theorem workerBoxes_spec (node : Node) (n : Z)
    (Hn : prop node WORKERS_PLANNED_BY_GATHER = JS.Num (JS.of_Z n))
    (Hr : 0 < n < 2 ^ 32) :
  exists boxes,
    workerBoxes node = Some boxes
    /\ map fst boxes = rev (map Z.of_nat (seq 0 (Z.to_nat n)))
    /\ Z.of_nat (List.length boxes) = n
    /\ NoDup (map fst boxes)
    /\ (forall index, In index (map fst boxes) <-> 0 <= index < n)
    /\ (forall workers,
        Workers node = Some workers ->
        (forall index dashed,
            In (index, dashed) boxes ->
            (dashed = true <-> Z.of_nat (List.length workers) <= index))
        /\ List.length (filter snd boxes)
           = (Z.to_nat n - List.length workers)%nat)
    /\ (Workers node = None ->
        forall index dashed, In (index, dashed) boxes -> dashed = false).
Proof.
  unfold workerBoxes, workersPlannedCountReversed, workersPlannedCount.
  rewrite Hn, Array_length_of_Z by lia.
  assert (T : JS.truthy (JS.Num (JS.of_Z n)) = true).
  { simpl. apply negb_true_iff, JSFacts.Qis_zero_false.
    unfold Qeq; simpl. lia. }
  rewrite T. eexists. split; [reflexivity|].
  set (indexes := rev (map Z.of_nat (seq 0 (Z.to_nat n)))).
  destruct (descending_indexes (Z.to_nat n)) as (L & I & D).
  fold indexes in L, I, D.
  assert (F : map fst
                (map (fun index =>
                        (index,
                         number_ge (JS.of_Z index)
                           (workersLaunchedCount node))) indexes)
              = indexes).
  { rewrite map_map. simpl. apply map_id. }
  rewrite F, length_map, L.
  split; [reflexivity|]. split; [lia|]. split; [exact D|].
  split; [intro i; rewrite I; lia|].
  unfold workersLaunchedCount. split.
  - intros workers ->. split.
    + intros index dashed H. apply in_map_iff in H as (i & [= <- <-] & _).
      rewrite number_ge_of_Z. apply Z.leb_le.
    + assert (E : filter snd
                    (map (fun index =>
                            (index,
                             number_ge (JS.of_Z index)
                               (JS.of_Z (Z.of_nat (List.length workers)))))
                       indexes)
                  = map (fun index =>
                           (index,
                            number_ge (JS.of_Z index)
                              (JS.of_Z (Z.of_nat (List.length workers)))))
                      (filter (fun index =>
                                 Z.of_nat (List.length workers) <=? index)
                         indexes)).
      { generalize indexes as l. clear.
        induction l as [|i rest IH]; [reflexivity|].
        simpl. rewrite number_ge_of_Z.
        destruct (Z.of_nat (List.length workers) <=? i) eqn:C; simpl;
          rewrite ?number_ge_of_Z, ?C, IH; reflexivity. }
      rewrite E, length_map. unfold indexes.
      rewrite dashed_count by lia. lia.
  - intros -> index dashed H.
    apply in_map_iff in H as (i & [= <- <-] & _). reflexivity.
Qed.

Lemma workerBoxes_spec_witness :
  workerBoxes
    {| props := [(WORKERS_PLANNED_BY_GATHER, JS.Num (JS.of_Z 3))];
       Workers := Some [[]] |}
  = Some [(2, true); (1, true); (0, false)].
Proof.
  destruct (workerBoxes_spec
              {| props := [(WORKERS_PLANNED_BY_GATHER, JS.Num (JS.of_Z 3))];
                 Workers := Some [[]] |} 3 eq_refl)
    as (boxes & E & _); [split; reflexivity|].
  reflexivity.
Defined.

(** X10: without a truthy planned count the template shows no worker box;
    with a planned count that is negative or not a whole number, building
    the boxes throws. *)
Theorem workerBoxes_edges (node : Node) :
  (JS.truthy (prop node WORKERS_PLANNED_BY_GATHER) = false ->
   workerBoxes node = Some [])
  /\ (forall q,
      prop node WORKERS_PLANNED_BY_GATHER = JS.Num (JS.Fin q) ->
      (q < 0)%Q \/ JS.Qis_integer q = false ->
      workerBoxes node = None).
Proof.
  unfold workerBoxes, workersPlannedCountReversed, workersPlannedCount.
  split.
  - intros ->. reflexivity.
  - intros q -> H.
    assert (T : JS.truthy (JS.Num (JS.Fin q)) = true).
    { simpl. apply negb_true_iff, JSFacts.Qis_zero_false. intro E.
      destruct H as [H | H]; [lra|].
      assert (I : JS.Qis_integer q = true).
      { unfold JS.Qis_integer. apply Qeq_bool_iff.
        assert (F : Qfloor q = 0) by (rewrite E; reflexivity).
        rewrite F. exact E. }
      congruence. }
    rewrite T. unfold Array_length.
    destruct H as [H | H].
    + assert (N : (0 <=? Qfloor q) = false).
      { apply Z.leb_gt.
        assert (G : ~ 0 <= Qfloor q).
        { rewrite Qfloor_ge_iff. change (inject_Z 0) with 0%Q. lra. }
        lia. }
      rewrite N, andb_false_r. reflexivity.
    + rewrite H. reflexivity.
Qed.

Lemma workerBoxes_edges_witness :
  workerBoxes (nodeOf [(ACTUAL_ROWS, 7)]) = Some []
  /\ workerBoxes (nodeOf [(WORKERS_PLANNED_BY_GATHER, -1)]) = None.
Proof.
  split.
  - exact (proj1 (workerBoxes_edges (nodeOf [(ACTUAL_ROWS, 7)])) eq_refl).
  - refine (proj2 (workerBoxes_edges
                     (nodeOf [(WORKERS_PLANNED_BY_GATHER, -1)]))
              (inject_Z (-1)) eq_refl (or_introl _)).
    reflexivity.
Defined.

(* ================================================================== *)
(** * What the node shows *)
(* ================================================================== *)

Lemma gt_weaken (i : JS.number) (a b : Z) :
  b <= a -> JS.gt i (JS.of_Z a) = true -> JS.gt i (JS.of_Z b) = true.
Proof.
  intro H. unfold JS.of_Z.
  destruct i as [| | |q]; try discriminate; try reflexivity.
  rewrite !JSFacts.gt_Fin. rewrite Zle_Qle in H. lra.
Qed.

(** The estimation badge is there exactly when the factor exceeds 10. *)
Lemma estimationClass_shown (node : Node) :
  badgeShown (estimationClass node)
  = JS.gt (JS.ToNumber (prop node PLANNER_ESTIMATE_FACTOR)) (JS.of_Z 10).
Proof.
  unfold estimationClass.
  set (i := JS.ToNumber (prop node PLANNER_ESTIMATE_FACTOR)).
  destruct (JS.gt i (JS.of_Z 1000)) eqn:G1.
  { now rewrite (gt_weaken i 1000 10) by (lia || exact G1). }
  destruct (JS.gt i (JS.of_Z 100)) eqn:G2.
  { now rewrite (gt_weaken i 100 10) by (lia || exact G2). }
  destruct (JS.gt i (JS.of_Z 10)); reflexivity.
Qed.

Lemma gt_truthy (v : JS.value) (k : Z) :
  0 <= k -> JS.gt (JS.ToNumber v) (JS.of_Z k) = true -> JS.truthy v = true.
Proof.
  intros K. destruct v as [|[| | |q]]; simpl; try discriminate;
    try reflexivity.
  intro H. apply JSFacts.gt_Fin in H.
  apply negb_true_iff, JSFacts.Qis_zero_pos.
  rewrite Zle_Qle in K. change (inject_Z 0) with 0%Q in K. lra.
Qed.

(** X11: the planner estimate is shown only for a node with a truthy
    estimate factor and a direction other than none, never in dot mode, and
    never on a collapsed node unless its details are shown.  Outside these
    cases it is shown exactly when the factor exceeds 10 or the details are
    shown.  The bar label, in contrast, is shown in every mode once the
    details are shown, and otherwise exactly on a node that is neither
    collapsed nor in dot mode. *)
Theorem planner_estimate_and_label
    (viewMode : ViewMode) (flags : Flags) (node : Node)
    (direction : option EstimateDirection) :
  let shown :=
    shouldShowPlannerEstimate viewMode flags
      (mountEstimateRefs node direction) node in
  let factor := prop node PLANNER_ESTIMATE_FACTOR in
  (shown = true ->
   JS.truthy factor = true
   /\ direction <> Some estimate_none
   /\ viewMode <> DOT
   /\ (collapsed flags = false \/ showDetails flags = true))
  /\ (JS.truthy factor = true ->
      direction <> Some estimate_none ->
      viewMode <> DOT ->
      collapsed flags = false \/ showDetails flags = true ->
      (shown = true <->
       JS.gt (JS.ToNumber factor) (JS.of_Z 10) = true
       \/ showDetails flags = true))
  /\ (shouldShowNodeBarLabel viewMode flags = true <->
      showDetails flags = true
      \/ (collapsed flags = false /\ viewMode <> DOT)).
Proof.
  intros shown factor. subst shown factor.
  unfold shouldShowPlannerEstimate, shouldShowNodeBarLabel,
    mountEstimateRefs; simpl.
  rewrite estimationClass_shown.
  destruct flags as [details coll]; simpl.
  split; [|split].
  - destruct viewMode, coll, details; simpl; try discriminate;
      destruct direction as [[|]|]; simpl;
      rewrite ?andb_false_r; try discriminate;
      destruct (JS.truthy (prop node PLANNER_ESTIMATE_FACTOR));
      rewrite ?andb_false_r; try discriminate;
      intros _; repeat split; try discriminate; auto.
  - intros T Hd Hm Hc. rewrite T.
    destruct (JS.gt _ (JS.of_Z 10));
      destruct viewMode, coll, details; destruct direction as [[|]|];
      simpl in *; intuition (congruence || discriminate).
  - destruct details, coll, viewMode; simpl;
      intuition (discriminate || congruence).
Qed.

Lemma planner_estimate_and_label_witness :
  shouldShowPlannerEstimate FULL
    {| showDetails := false; collapsed := false |}
    (mountEstimateRefs (nodeOf [(PLANNER_ESTIMATE_FACTOR, 50)])
       (Some over_or_under))
    (nodeOf [(PLANNER_ESTIMATE_FACTOR, 50)])
  = true.
Proof.
  refine (proj2 (proj1 (proj2
            (planner_estimate_and_label FULL
               {| showDetails := false; collapsed := false |}
               (nodeOf [(PLANNER_ESTIMATE_FACTOR, 50)])
               (Some over_or_under))) eq_refl _ _ (or_introl eq_refl))
            (or_introl eq_refl));
    discriminate.
Defined.

Lemma keepCapitals_app (a b : string) :
  keepCapitals (a ++ b) = (keepCapitals a ++ keepCapitals b)%string.
Proof.
  induction a as [|c a IH]; simpl; [reflexivity|].
  destruct (isCapital c); simpl; now rewrite IH.
Qed.

Lemma keepCapitals_capital (text : string) :
  Forall (fun c => isCapital c = true)
         (list_ascii_of_string (keepCapitals text)).
Proof.
  induction text as [|c text IH]; simpl; [constructor|].
  destruct (isCapital c) eqn:E; simpl; [constructor|]; assumption.
Qed.

Lemma keepCapitals_length (text : string) :
  (String.length (keepCapitals text) <= String.length text)%nat.
Proof.
  induction text as [|c text IH]; simpl; [lia|].
  destruct (isCapital c); simpl; lia.
Qed.

(** X12: in dot mode, with the details hidden, the node's name is reduced
    to its capital letters: "P" for a parallel-aware node, followed by the
    capitals of the node type; every character of it is a capital from A to
    Z and it is no longer than the full name.  In any other mode, or with
    the details shown, the name is the node type, after "Parallel " for a
    parallel-aware node. *)
Theorem getNodeName_spec (viewMode : ViewMode) (flags : Flags)
    (isParallelAware : bool) (nodeType : string) :
  let full :=
    ((if isParallelAware then "Parallel " else "") ++ nodeType)%string in
  let name := getNodeName viewMode flags isParallelAware (Some nodeType) in
  (viewMode = DOT -> showDetails flags = false ->
   name = ((if isParallelAware then "P" else "")
           ++ keepCapitals nodeType)%string
   /\ Forall (fun c => isCapital c = true) (list_ascii_of_string name)
   /\ (String.length name <= String.length full)%nat)
  /\ (viewMode <> DOT \/ showDetails flags = true -> name = full).
Proof.
  intros full name. subst full name. unfold getNodeName. split.
  - intros -> ->. simpl negb. cbv iota.
    split; [|split].
    + rewrite keepCapitals_app. destruct isParallelAware; reflexivity.
    + apply keepCapitals_capital.
    + apply keepCapitals_length.
  - intros [H | H].
    + destruct viewMode; try reflexivity. congruence.
    + rewrite H. destruct viewMode; reflexivity.
Qed.

Lemma getNodeName_spec_witness :
  getNodeName DOT {| showDetails := false; collapsed := false |} true
    (Some "Seq Scan"%string)
  = "PSS"%string.
Proof.
  exact (proj1 (proj1 (getNodeName_spec DOT
                         {| showDetails := false; collapsed := false |}
                         true "Seq Scan"%string) eq_refl eq_refl)).
Defined.

(** X13: [shouldShowProp] never shows a property of [notMiscProperties],
    whatever its value; as ACTUAL_ROWS is on that list, the test for it
    never decides, and a property is shown exactly when it is off the list
    and its value is truthy or its type is [increment]. *)
Theorem shouldShowProp_spec (nodePropTypes : string -> option PropType)
    (key : string) (value : anyValue) :
  (In key notMiscProperties -> shouldShowProp nodePropTypes key value = false)
  /\ shouldShowProp nodePropTypes key value
     = (notListed key notMiscProperties
        && (any_truthy value
            || match nodePropTypes key with
               | Some increment => true
               | _ => false
               end)).
Proof.
  split.
  - intro H. unfold shouldShowProp, notListed.
    assert (E : existsb (String.eqb key) notMiscProperties = true).
    { apply existsb_exists. exists key. split; [exact H|].
      apply String.eqb_refl. }
    rewrite E. apply andb_false_r.
  - unfold shouldShowProp. destruct (String.eqb_spec key "ACTUAL_ROWS").
    + subst key. rewrite andb_comm. reflexivity.
    + rewrite orb_false_r. apply andb_comm.
Qed.

Lemma shouldShowProp_spec_witness :
  In "ACTUAL_ROWS"%string notMiscProperties
  /\ shouldShowProp (fun _ => None) "ACTUAL_ROWS"
       (any_number (JS.of_Z 7)) = false.
Proof.
  assert (H : In "ACTUAL_ROWS"%string notMiscProperties)
    by (simpl; tauto).
  split; [exact H|].
  exact (proj1 (shouldShowProp_spec (fun _ => None) "ACTUAL_ROWS"
                  (any_number (JS.of_Z 7))) H).
Defined.

(* ================================================================== *)
(** * The I/O buffers tab *)
(* ================================================================== *)

Lemma summand_positive (v : JS.value) :
  summand v ->
  (JS.gt (JS.ToNumber v) (JS.of_Z 0) = true <-> isPositive v).
Proof.
  destruct v as [|[| | |q]]; simpl; try contradiction; intros _.
  - split; [discriminate | contradiction].
  - apply JSFacts.gt_Fin.
Qed.

Lemma sum_step (result current : JS.value) :
  summand result -> summand current ->
  let next :=
    match current with
    | JS.undefined => result
    | JS.Num c =>
        match result with
        | JS.undefined => JS.Num c
        | JS.Num r => JS.Num (JS.add r c)
        end
    end in
  summand next /\ (isPositive next <-> isPositive result \/ isPositive current).
Proof.
  destruct current as [|[| | |c]]; simpl; try contradiction;
    destruct result as [|[| | |r]]; simpl; try contradiction;
    intros Hr Hc; try (split; tauto).
  split; [lra|]. split.
  - intro H. destruct (Qlt_le_dec 0 r); [left; assumption | right; lra].
  - intros [H | H]; lra.
Qed.

Lemma sum_fold (values : list JS.value) :
  forall result,
    summand result -> Forall summand values ->
    let total :=
      fold_left
        (fun result current =>
           match current with
           | JS.undefined => result
           | JS.Num c =>
               match result with
               | JS.undefined => JS.Num c
               | JS.Num r => JS.Num (JS.add r c)
               end
           end)
        values result in
    summand total
    /\ (isPositive total <->
        isPositive result \/ exists v, In v values /\ isPositive v).
Proof.
  induction values as [|v rest IH]; intros result Hr Hv; simpl.
  - split; [exact Hr|]. split; [tauto|].
    intros [H | (v & [] & _)]. exact H.
  - inversion Hv as [|? ? Hv1 Hv2]; subst.
    destruct (sum_step result v Hr Hv1) as (S1 & S2).
    destruct (IH _ S1 Hv2) as (T1 & T2).
    split; [exact T1|]. rewrite T2, S2. split.
    + intros [[H | H] | (w & Hw & Pw)]; [left; exact H | right | right].
      * exists v. split; [left; reflexivity | exact H].
      * exists w. split; [right; exact Hw | exact Pw].
    + intros [H | (w & [<- | Hw] & Pw)].
      * left; left; exact H.
      * left; right; exact Pw.
      * right. exists w. split; assumption.
Qed.

Lemma counter_normalised (v : JS.value) :
  isCounter v ->
  let w := if lodash_isNaN v then JS.Num (JS.of_Z 0) else v in
  summand w /\ (isPositive w <-> isPositive v).
Proof.
  destruct v as [|[| | |q]]; simpl; try contradiction; intros H.
  - split; tauto.
  - split; [discriminate|]. split; [intro L; cbv in L; discriminate L | contradiction].
  - split; tauto.
Qed.

(** X14: for I/O counters that are absent, [NaN] or counts, the I/O buffers
    are shown exactly when one of the twelve exclusive counters is there and
    positive; an absent or [NaN] counter counts as nothing, and a node with
    none of the counters shows no I/O buffers. *)
Theorem shouldShowIoBuffers_spec (node : NamedNode)
    (Hc : forall name, In name ioBufferProperties ->
                       isCounter (namedProp node name)) :
  shouldShowIoBuffers node = true <->
  exists name,
    In name ioBufferProperties /\ isPositive (namedProp node name).
Proof.
  unfold shouldShowIoBuffers. cbv zeta.
  set (normal := fun property =>
                   if lodash_isNaN (namedProp node property)
                   then JS.Num (JS.of_Z 0)
                   else namedProp node property).
  assert (F : Forall summand (map normal ioBufferProperties)).
  { apply Forall_forall. intros v Hv.
    apply in_map_iff in Hv as (name & <- & Hn).
    apply (counter_normalised _ (Hc name Hn)). }
  destruct (sum_fold (map normal ioBufferProperties) JS.undefined I F)
    as (S & P).
  change (lodash_sum (map normal ioBufferProperties))
    with (fold_left
            (fun result current =>
               match current with
               | JS.undefined => result
               | JS.Num c =>
                   match result with
                   | JS.undefined => JS.Num c
                   | JS.Num r => JS.Num (JS.add r c)
                   end
               end)
            (map normal ioBufferProperties) JS.undefined).
  rewrite (summand_positive _ S), P. split.
  - intros [[] | (v & Hv & Pv)].
    apply in_map_iff in Hv as (name & <- & Hn).
    exists name. split; [exact Hn|].
    now apply (counter_normalised _ (Hc name Hn)).
  - intros (name & Hn & Pn). right. exists (normal name). split.
    + now apply in_map.
    + now apply (counter_normalised _ (Hc name Hn)).
Qed.

Lemma shouldShowIoBuffers_spec_witness :
  shouldShowIoBuffers
    [("EXCLUSIVE_SHARED_HIT_BLOCKS"%string, JS.Num JS.NaN);
     ("EXCLUSIVE_TEMP_READ_BLOCKS"%string, JS.Num (JS.of_Z 4))]
  = true.
Proof.
  apply (proj2 (shouldShowIoBuffers_spec
                  [("EXCLUSIVE_SHARED_HIT_BLOCKS"%string, JS.Num JS.NaN);
                   ("EXCLUSIVE_TEMP_READ_BLOCKS"%string,
                    JS.Num (JS.of_Z 4))]
                  ltac:(intros name H; simpl in H;
                        repeat (destruct H as [<- | H];
                                [cbv; (exact I || discriminate)|]);
                        contradiction))).
  exists "EXCLUSIVE_TEMP_READ_BLOCKS"%string. split.
  - simpl; tauto.
  - reflexivity.
Defined.

(* ================================================================== *)
(** * The saved plans of the home view *)
(* ================================================================== *)

Lemma assign_length (array : list Home.Slot) (index : nat) (item : Home.Slot) :
  List.length (Home.assign array index item)
  = Nat.max (List.length array) (S index).
Proof.
  revert array. induction index as [|k IH]; intros [|first rest]; simpl;
    try reflexivity; try (rewrite IH; simpl; lia); lia.
Qed.

Lemma assign_nth_same (array : list Home.Slot) (index : nat)
    (item : Home.Slot) :
  nth_error (Home.assign array index item) index = Some item.
Proof.
  revert array. induction index as [|k IH]; intros [|first rest]; simpl;
    try reflexivity; apply IH.
Qed.

Lemma nth_error_nil_slot (k : nat) : nth_error (@nil Home.Slot) k = None.
Proof. destruct k; reflexivity. Qed.

(** Reading any other index gives what was there before: a hole reads like
    an index outside the array. *)
Lemma assign_nth_other (array : list Home.Slot) (index j : nat)
    (item : Home.Slot) :
  j <> index ->
  match nth_error (Home.assign array index item) j with
  | Some slot => slot
  | None => None
  end
  = match nth_error array j with
    | Some slot => slot
    | None => None
    end.
Proof.
  revert array j. induction index as [|k IH]; intros [|first rest] [|j] H;
    simpl; try reflexivity; try congruence.
  - now rewrite !nth_error_nil_slot.
  - rewrite (IH [] j) by congruence. now rewrite nth_error_nil_slot.
  - apply IH. congruence.
Qed.

Lemma at_index_assign_same (array : list Home.Slot) (index : Z)
    (item : Home.Slot) :
  0 <= index ->
  Home.at_index (Home.assign array (Z.to_nat index) item) index = item.
Proof.
  intro H. unfold Home.at_index.
  apply Z.ltb_ge in H. rewrite H. now rewrite assign_nth_same.
Qed.

Lemma at_index_assign_other (array : list Home.Slot) (index j : Z)
    (item : Home.Slot) :
  0 <= index -> j <> index ->
  Home.at_index (Home.assign array (Z.to_nat index) item) j
  = Home.at_index array j.
Proof.
  intros H N. unfold Home.at_index.
  destruct (Z.ltb_spec j 0); [reflexivity|].
  apply assign_nth_other. lia.
Qed.

Lemma at_index_Some_range (array : list Home.Slot) (index : Z)
    (plan : Home.Plan) :
  Home.at_index array index = Some plan ->
  0 <= index < Z.of_nat (List.length array).
Proof.
  unfold Home.at_index. destruct (Z.ltb_spec index 0); [discriminate|].
  destruct (nth_error array (Z.to_nat index)) eqn:E; [|discriminate].
  intros _. assert (L : (Z.to_nat index < List.length array)%nat).
  { apply nth_error_Some. congruence. }
  lia.
Qed.

(** [splice(index, 1)] inside the array: the element is taken out and the
    later ones move down by one. *)
Lemma splice1_inside (array : list Home.Slot) (index : Z) :
  0 <= index < Z.of_nat (List.length array) ->
  Z.of_nat (List.length (Home.splice1 array index))
  = Z.of_nat (List.length array) - 1
  /\ forall j,
       Home.at_index (Home.splice1 array index) j
       = if j <? index then Home.at_index array j
         else Home.at_index array (j + 1).
Proof.
  intros [H0 H1]. unfold Home.splice1.
  apply Z.ltb_ge in H0 as B. rewrite B.
  rewrite Z.min_l by lia.
  set (n := Z.to_nat index).
  assert (Hn : (n < List.length array)%nat) by lia.
  split.
  - rewrite length_app, length_firstn, length_skipn. lia.
  - intro j. unfold Home.at_index.
    destruct (Z.ltb_spec j 0) as [J | J].
    { destruct (Z.ltb_spec j index); [reflexivity | lia]. }
    destruct (Z.ltb_spec j index) as [L | L].
    + rewrite nth_error_app1 by (rewrite length_firstn; lia).
      rewrite nth_error_firstn.
      destruct (Nat.ltb_spec (Z.to_nat j) n); [reflexivity | lia].
    + destruct (Z.ltb_spec (j + 1) 0); [lia|].
      rewrite nth_error_app2 by (rewrite length_firstn; lia).
      rewrite length_firstn, nth_error_skipn.
      replace (S n + (Z.to_nat j - Nat.min n (List.length array)))%nat
        with (Z.to_nat (j + 1)) by lia.
      reflexivity.
Qed.

Lemma splice1_outside (array : list Home.Slot) (index : Z) :
  Z.of_nat (List.length array) <= index -> Home.splice1 array index = array.
Proof.
  intro H. unfold Home.splice1.
  destruct (Z.ltb_spec index 0); [lia|].
  rewrite Z.min_r by lia. rewrite Nat2Z.id.
  rewrite firstn_all, skipn_all2 by lia. apply app_nil_r.
Qed.

(** The list in memory, once loaded, is the list in the storage; and the
    index of the plan being edited is -1 or an index from 0 up. *)
Lemma handle_keeps_sync (v : Home.View) (e : Home.Event) :
  (forall saved,
      Home.savedPlans v = Some saved ->
      Home.loadSavedPlans (Home.localStorage v) = saved) ->
  -1 <= Home.currentPlanIndex v ->
  (forall saved,
      Home.savedPlans (Home.handle v e) = Some saved ->
      Home.loadSavedPlans (Home.localStorage (Home.handle v e)) = saved)
  /\ -1 <= Home.currentPlanIndex (Home.handle v e).
Proof.
  intros S I. destruct e as [| plan query name | sample | lo iso | i | i];
    simpl.
  - split; [intros saved [= <-]; reflexivity | exact I].
  - split; assumption.
  - split; [assumption | lia].
  - split; [intros saved [= <-]; reflexivity | exact I].
  - unfold Home.editPlan, Home.loadPlan.
    destruct (Home.savedPlans v) as [saved|] eqn:E.
    + destruct (Home.at_index saved i) as [plan|] eqn:A; simpl.
      * split; [intros saved0 H; apply S; congruence|].
        apply at_index_Some_range in A. lia.
      * split; [intros saved0 H; apply S; congruence | exact I].
    + split; [intros saved0 H; apply S; congruence | exact I].
  - split; [|exact I].
    destruct (Home.savedPlans v); intros saved [= <-]. reflexivity.
Qed.

(** X15: whatever the user does, starting from any content of the storage,
    the list of saved plans in memory, once it has been loaded, is the list
    the storage holds, and the index of the plan being edited is -1 or an
    index from 0 up; the storage is written only by submitting and by
    deleting. *)
Theorem saved_plans_in_sync (stored : option (list Home.Slot))
    (events : list Home.Event) :
  let v := Home.run events (Home.setup stored) in
  (forall saved,
      Home.savedPlans v = Some saved ->
      Home.loadSavedPlans (Home.localStorage v) = saved)
  /\ -1 <= Home.currentPlanIndex v
  /\ (forall w e,
      match e with
      | Home.Submitted _ _ | Home.DeleteClicked _ => True
      | _ => Home.localStorage (Home.handle w e) = Home.localStorage w
      end).
Proof.
  intro v. subst v.
  assert (G : forall events v,
             (forall saved,
                 Home.savedPlans v = Some saved ->
                 Home.loadSavedPlans (Home.localStorage v) = saved) ->
             -1 <= Home.currentPlanIndex v ->
             (forall saved,
                 Home.savedPlans (Home.run events v) = Some saved ->
                 Home.loadSavedPlans (Home.localStorage (Home.run events v))
                 = saved)
             /\ -1 <= Home.currentPlanIndex (Home.run events v)).
  { clear. induction events as [|e rest IH]; intros v S I; simpl.
    - split; assumption.
    - destruct (handle_keeps_sync v e S I) as (S' & I').
      exact (IH _ S' I'). }
  destruct (G events (Home.setup stored)) as (S & I).
  - intros saved. discriminate.
  - simpl; lia.
  - split; [exact S|]. split; [exact I|].
    intros w [| plan query name | sample | lo iso | i | i]; simpl; auto.
    unfold Home.editPlan, Home.loadPlan.
    destruct (Home.savedPlans w) as [saved|]; [|reflexivity].
    destruct (Home.at_index saved i); reflexivity.
Qed.

(** X16: submitting the form with no plan being edited puts the new plan in
    front of the stored list and keeps every stored plan; with the plan at
    [index] being edited it writes the new plan at [index] and leaves every
    other index of the stored list as it reads, the list growing up to
    [index] if it was shorter.  The new plan carries the form's plan and
    query texts, and as its name the form's name or, when that is empty, a
    name made of the date. *)
Theorem submitPlan_effect (localeNow isoNow : string) (v : Home.View) :
  let before := Home.loadSavedPlans (Home.localStorage v) in
  let v' := Home.submitPlan localeNow isoNow v in
  let newPlan := {|
    Home.planName :=
      if String.eqb (Home.queryName v) ""
      then ("New Plan - " ++ localeNow)%string
      else Home.queryName v;
    Home.planSource := Home.planInput v;
    Home.planQuery := Home.queryInput v;
    Home.planCreatedAt := Some isoNow |} in
  (Home.currentPlanIndex v < 0 ->
   Home.localStorage v' = Some (Some newPlan :: before))
  /\ (0 <= Home.currentPlanIndex v ->
      exists after,
        Home.localStorage v' = Some after
        /\ Home.at_index after (Home.currentPlanIndex v) = Some newPlan
        /\ (forall j,
            j <> Home.currentPlanIndex v ->
            Home.at_index after j = Home.at_index before j)
        /\ Z.of_nat (List.length after)
           = Z.max (Z.of_nat (List.length before))
               (Home.currentPlanIndex v + 1))
  /\ Home.savedPlans v' = Home.localStorage v'
  /\ Home.currentPlanIndex v' = Home.currentPlanIndex v.
Proof.
  intros before v' newPlan. subst before v' newPlan.
  unfold Home.submitPlan, Home.savePlanData, Home.storeSavedPlans; simpl.
  split; [|split; [|split; reflexivity]].
  - intro H. apply Z.leb_gt in H. now rewrite H.
  - intro H. apply Z.leb_le in H as B. rewrite B.
    eexists. split; [reflexivity|]. split; [|split].
    + now apply at_index_assign_same.
    + intros j N. now apply at_index_assign_other.
    + rewrite assign_length. lia.
Qed.

Lemma submitPlan_effect_witness :
  Home.localStorage
    (Home.submitPlan "3 Nov 2026" "2026-11-03T00:00:00.000Z"
       (Home.setup None))
  = Some [Some {| Home.planName := "New Plan - 3 Nov 2026";
                  Home.planSource := "";
                  Home.planQuery := "";
                  Home.planCreatedAt := Some "2026-11-03T00:00:00.000Z" |}]%string.
Proof.
  refine (proj1 (submitPlan_effect "3 Nov 2026" "2026-11-03T00:00:00.000Z"
                   (Home.setup None)) _).
  reflexivity.
Defined.

(** X17: deleting the row [index] of the list shown takes that plan out of
    the list and of the storage and moves the later plans up by one; an
    index from the end of the list on removes nothing.  The index of the
    plan being edited is not adjusted. *)
Theorem deletePlan_effect (index : Z) (v : Home.View)
    (saved : list Home.Slot)
    (Hs : Home.savedPlans v = Some saved) :
  let v' := Home.deletePlan index v in
  Home.savedPlans v' = Home.localStorage v'
  /\ Home.currentPlanIndex v' = Home.currentPlanIndex v
  /\ (0 <= index < Z.of_nat (List.length saved) ->
      exists after,
        Home.localStorage v' = Some after
        /\ Z.of_nat (List.length after) = Z.of_nat (List.length saved) - 1
        /\ forall j,
             Home.at_index after j
             = if j <? index then Home.at_index saved j
               else Home.at_index saved (j + 1))
  /\ (Z.of_nat (List.length saved) <= index ->
      Home.localStorage v' = Some saved).
Proof.
  intro v'. subst v'. unfold Home.deletePlan, Home.storeSavedPlans.
  rewrite Hs. simpl. split; [reflexivity|]. split; [reflexivity|]. split.
  - intro H. eexists. split; [reflexivity|]. now apply splice1_inside.
  - intro H. now rewrite splice1_outside.
Qed.

Lemma deletePlan_effect_witness :
  Home.localStorage
    (Home.deletePlan 5
       (Home.onMounted (Home.setup (Some [None; None]))))
  = Some [None; None].
Proof.
  refine (proj2 (proj2 (proj2
            (deletePlan_effect 5
               (Home.onMounted (Home.setup (Some [None; None])))
               [None; None] eq_refl))) _).
  simpl. lia.
Defined.

Lemma saved_plans_in_sync_witness :
  Home.savedPlans
    (Home.run [Home.Mounted; Home.Submitted "now"%string "iso"%string; Home.DeleteClicked 0]
       (Home.setup None)) = Some []
  /\ Home.loadSavedPlans
       (Home.localStorage
          (Home.run
             [Home.Mounted; Home.Submitted "now"%string "iso"%string; Home.DeleteClicked 0]
             (Home.setup None))) = [].
Proof.
  split; [reflexivity|].
  exact (proj1 (saved_plans_in_sync None
                  [Home.Mounted; Home.Submitted "now"%string "iso"%string;
                   Home.DeleteClicked 0]) [] eq_refl).
Defined.

(** Submitting while the plan at [index] is being edited. *)
Lemma submitPlan_spec_edit (localeNow isoNow : string) (v : Home.View)
    (index : Z) :
  Home.currentPlanIndex v = index -> 0 <= index ->
  exists after,
    Home.localStorage (Home.submitPlan localeNow isoNow v) = Some after
    /\ Home.at_index after index
       = Some {| Home.planName :=
                   if String.eqb (Home.queryName v) ""%string
                   then ("New Plan - "%string ++ localeNow)
                   else Home.queryName v;
                 Home.planSource := Home.planInput v;
                 Home.planQuery := Home.queryInput v;
                 Home.planCreatedAt := Some isoNow |}
    /\ (forall j,
        j <> index ->
        Home.at_index after j
        = Home.at_index (Home.loadSavedPlans (Home.localStorage v)) j)
    /\ Z.of_nat (List.length after)
       = Z.max
           (Z.of_nat
              (List.length (Home.loadSavedPlans (Home.localStorage v))))
           (index + 1).
Proof.
  intros <- H.
  unfold Home.submitPlan, Home.savePlanData, Home.storeSavedPlans; simpl.
  apply Z.leb_le in H as B. rewrite B.
  eexists. split; [reflexivity|]. split; [|split].
  - now apply at_index_assign_same.
  - intros j N. now apply at_index_assign_other.
  - rewrite assign_length. lia.
Qed.

(** X18: editing a saved plan and submitting the form as it was loaded
    writes the plan back where it was: the stored list keeps its length and
    every other entry, and the entry edited keeps its name, plan and query
    and gets the new creation time.  (The name is kept when it is not
    empty.) *)
Theorem edit_then_submit (localeNow isoNow : string) (v : Home.View)
    (saved : list Home.Slot) (index : Z) (plan : Home.Plan)
    (Hs : Home.savedPlans v = Some saved)
    (Hsync : Home.loadSavedPlans (Home.localStorage v) = saved)
    (Hp : Home.at_index saved index = Some plan)
    (Hname : Home.planName plan <> ""%string) :
  let edited := Home.editPlan index v in
  let v' := Home.submitPlan localeNow isoNow edited in
  Home.planInput edited = Home.planSource plan
  /\ Home.queryInput edited = Home.planQuery plan
  /\ Home.queryName edited = Home.planName plan
  /\ exists after,
       Home.localStorage v' = Some after
       /\ List.length after = List.length saved
       /\ Home.at_index after index
          = Some {| Home.planName := Home.planName plan;
                    Home.planSource := Home.planSource plan;
                    Home.planQuery := Home.planQuery plan;
                    Home.planCreatedAt := Some isoNow |}
       /\ forall j, j <> index ->
                    Home.at_index after j = Home.at_index saved j.
Proof.
  intros edited v'. subst edited v'.
  pose proof (at_index_Some_range _ _ _ Hp) as R.
  unfold Home.editPlan. rewrite Hs, Hp. simpl Home.loadPlan.
  split; [reflexivity|]. split; [reflexivity|]. split; [reflexivity|].
  match goal with
  | |- context [Home.submitPlan _ _ ?w] =>
      destruct (submitPlan_spec_edit localeNow isoNow w index) as
        (after & E & A1 & A2 & A3)
  end; [reflexivity | lia|].
  simpl in E, A1, A2, A3. rewrite Hsync in A2, A3.
  apply String.eqb_neq in Hname. rewrite Hname in A1.
  exists after. split; [exact E|]. split; [lia|]. split; assumption.
Qed.

Lemma edit_then_submit_witness :
  Home.localStorage
    (Home.submitPlan "now"%string "later"%string
       (Home.editPlan 0
          (Home.onMounted
             (Home.setup
                (Some [Some {| Home.planName := "a"%string; Home.planSource := "b"%string;
                               Home.planQuery := "c"%string;
                               Home.planCreatedAt := Some "before"%string |}])))))
  = Some [Some {| Home.planName := "a"%string; Home.planSource := "b"%string;
                  Home.planQuery := "c"%string;
                  Home.planCreatedAt := Some "later"%string |}].
Proof.
  destruct (edit_then_submit "now"%string "later"%string
              (Home.onMounted
                 (Home.setup
                    (Some [Some {| Home.planName := "a"%string;
                                   Home.planSource := "b"%string;
                                   Home.planQuery := "c"%string;
                                   Home.planCreatedAt := Some "before"%string |}])))
              _ 0 _ eq_refl eq_refl eq_refl)
    as (_ & _ & _ & after & E & _);
    [discriminate|].
  reflexivity.
Defined.

(** X19: the index of the plan being edited is not moved when an earlier
    row is deleted.  After editing the plan at [index], deleting an earlier
    row [deleted] and submitting, the edited plan is still in the list in
    its old version, one place up, and the new version is written at
    [index], over the plan that followed the edited one; every other entry
    reads as after the deletion. *)
Theorem delete_while_editing (localeNow isoNow : string) (v : Home.View)
    (saved : list Home.Slot) (index deleted : Z) (plan : Home.Plan)
    (Hs : Home.savedPlans v = Some saved)
    (Hp : Home.at_index saved index = Some plan)
    (Hd : 0 <= deleted < index) :
  let v' :=
    Home.submitPlan localeNow isoNow
      (Home.deletePlan deleted (Home.editPlan index v)) in
  exists after,
    Home.localStorage v' = Some after
    /\ Home.at_index after (index - 1) = Some plan
    /\ (exists created name,
           Home.at_index after index
           = Some {| Home.planName := name;
                     Home.planSource := Home.planSource plan;
                     Home.planQuery := Home.planQuery plan;
                     Home.planCreatedAt := created |})
    /\ (forall j,
        j <> index ->
        Home.at_index after j
        = if j <? deleted then Home.at_index saved j
          else Home.at_index saved (j + 1)).
Proof.
  intro v'. subst v'.
  pose proof (at_index_Some_range _ _ _ Hp) as R.
  unfold Home.editPlan. rewrite Hs, Hp. simpl Home.loadPlan. rewrite Hs.
  destruct (splice1_inside saved deleted) as (L & A); [lia|].
  match goal with
  | |- context [Home.submitPlan _ _ ?w] =>
      pose proof (eq_refl : Home.loadSavedPlans (Home.localStorage w)
                            = Home.splice1 saved deleted) as Ew;
      destruct (submitPlan_spec_edit localeNow isoNow w index) as
        (after & E & A1 & A2 & A3)
  end; [reflexivity | lia|].
  rewrite Ew in A2, A3. clear Ew.
  cbn [Home.deletePlan Home.queryName Home.planInput Home.queryInput] in A1.
  exists after. split; [exact E|]. split; [|split].
  - rewrite A2 by lia. rewrite A.
    destruct (Z.ltb_spec (index - 1) deleted); [lia|].
    now replace (index - 1 + 1) with index by lia.
  - eexists. eexists. exact A1.
  - intros j N. rewrite A2 by exact N. apply A.
Qed.

Lemma delete_while_editing_witness :
  Home.localStorage
    (Home.submitPlan "now"%string "later"%string
       (Home.deletePlan 0
          (Home.editPlan 1
             (Home.onMounted
                (Home.setup
                   (Some [None;
                          Some {| Home.planName := "a"%string;
                                  Home.planSource := "b"%string;
                                  Home.planQuery := "c"%string;
                                  Home.planCreatedAt := None |}]))))))
  = Some [Some {| Home.planName := "a"%string; Home.planSource := "b"%string;
                  Home.planQuery := "c"%string; Home.planCreatedAt := None |};
          Some {| Home.planName := "a"%string; Home.planSource := "b"%string;
                  Home.planQuery := "c"%string;
                  Home.planCreatedAt := Some "later"%string |}].
Proof.
  destruct (delete_while_editing "now"%string "later"%string
              (Home.onMounted
                 (Home.setup
                    (Some [None;
                           Some {| Home.planName := "a"%string;
                                   Home.planSource := "b"%string;
                                   Home.planQuery := "c"%string;
                                   Home.planCreatedAt := None |}])))
              _ 1 0 _ eq_refl eq_refl)
    as (after & E & _); [lia|].
  reflexivity.
Defined.

Lemma assign_hole (array : list Home.Slot) (index k : nat)
    (item : Home.Slot) :
  (List.length array <= k < index)%nat ->
  nth_error (Home.assign array index item) k = Some None.
Proof.
  revert array k. induction index as [|i IH]; intros [|first rest] k H;
    simpl in *; try lia.
  - destruct k; [reflexivity|]. simpl. apply IH. simpl. lia.
  - destruct k; [lia|]. simpl. apply IH. lia.
Qed.

(** X20: submitting while the index of the plan being edited lies beyond
    the end of the stored list, as it does once enough rows were deleted
    during the edit, leaves null entries in the stored list: every index
    from the old end up to the edited index holds no plan. *)
Theorem submit_leaves_holes (localeNow isoNow : string) (v : Home.View)
    (Hi : Z.of_nat (List.length (Home.loadSavedPlans (Home.localStorage v)))
          < Home.currentPlanIndex v) :
  exists after,
    Home.localStorage (Home.submitPlan localeNow isoNow v) = Some after
    /\ Z.of_nat (List.length after) = Home.currentPlanIndex v + 1
    /\ In None after
    /\ forall k,
         Z.of_nat (List.length (Home.loadSavedPlans (Home.localStorage v)))
         <= k < Home.currentPlanIndex v ->
         nth_error after (Z.to_nat k) = Some None.
Proof.
  unfold Home.submitPlan, Home.savePlanData, Home.storeSavedPlans; simpl.
  set (before := Home.loadSavedPlans (Home.localStorage v)) in *.
  assert (B : (0 <=? Home.currentPlanIndex v) = true)
    by (apply Z.leb_le; lia).
  rewrite B. eexists. split; [reflexivity|].
  assert (H : forall k,
             Z.of_nat (List.length before) <= k < Home.currentPlanIndex v ->
             nth_error
               (Home.assign before (Z.to_nat (Home.currentPlanIndex v))
                  (Some {| Home.planName :=
                             if String.eqb (Home.queryName v) ""%string
                             then ("New Plan - "%string ++ localeNow)
                             else Home.queryName v;
                           Home.planSource := Home.planInput v;
                           Home.planQuery := Home.queryInput v;
                           Home.planCreatedAt := Some isoNow |}))
               (Z.to_nat k) = Some None).
  { intros k Hk. apply assign_hole. lia. }
  split; [rewrite assign_length; lia|]. split; [|exact H].
  apply (nth_error_In _ (Z.to_nat (Z.of_nat (List.length before)))).
  apply H. lia.
Qed.

Lemma submit_leaves_holes_witness :
  Home.possible
    [Home.Mounted; Home.EditClicked 2; Home.DeleteClicked 0;
     Home.DeleteClicked 0]
    (Home.setup
       (Some [None; None;
              Some {| Home.planName := "a"%string; Home.planSource := "b"%string;
                      Home.planQuery := "c"%string;
                      Home.planCreatedAt := None |}]))
  /\ exists after,
       Home.localStorage
         (Home.run
            [Home.Mounted; Home.EditClicked 2; Home.DeleteClicked 0;
             Home.DeleteClicked 0; Home.Submitted "now"%string "later"%string]
            (Home.setup
               (Some [None; None;
                      Some {| Home.planName := "a"%string; Home.planSource := "b"%string;
                              Home.planQuery := "c"%string;
                              Home.planCreatedAt := None |}])))
       = Some after
       /\ In None after.
Proof.
  split; [simpl; lia|].
  destruct (submit_leaves_holes "now"%string "later"%string
              (Home.run
                 [Home.Mounted; Home.EditClicked 2; Home.DeleteClicked 0;
                  Home.DeleteClicked 0]
                 (Home.setup
                    (Some [None; None;
                           Some {| Home.planName := "a"%string;
                                   Home.planSource := "b"%string;
                                   Home.planQuery := "c"%string;
                                   Home.planCreatedAt := None |}]))))
    as (after & E & _ & H & _); [simpl; lia|].
  exists after. split; [exact E | exact H].
Defined.

(** X21: editing does nothing when there is no plan to load: before the
    list was loaded, for an index below 0 or from the end of the list on,
    and for a null entry; the form, the index of the plan being edited and
    the storage stay as they were. *)
Theorem editPlan_nothing_to_load (index : Z) (v : Home.View) :
  (Home.savedPlans v = None
   \/ exists saved,
        Home.savedPlans v = Some saved
        /\ (index < 0
            \/ Z.of_nat (List.length saved) <= index
            \/ nth_error saved (Z.to_nat index) = Some None)) ->
  Home.editPlan index v = v.
Proof.
  unfold Home.editPlan.
  intros [-> | (saved & -> & H)]; [reflexivity|].
  assert (A : Home.at_index saved index = None).
  { unfold Home.at_index. destruct (Z.ltb_spec index 0); [reflexivity|].
    destruct H as [H | [H | H]]; [lia | | now rewrite H].
    assert (N : nth_error saved (Z.to_nat index) = None)
      by (apply nth_error_None; lia).
    now rewrite N. }
  now rewrite A.
Qed.

Lemma editPlan_nothing_to_load_witness :
  Home.editPlan 3 (Home.onMounted (Home.setup (Some [None])))
  = Home.onMounted (Home.setup (Some [None])).
Proof.
  apply editPlan_nothing_to_load. right. exists [None].
  split; [reflexivity|]. right. left. simpl. lia.
Defined.
